(** * The signon service of the IBM i client (src/service/signon.js)

    A shallow embedding of the [Signon] class and of [SignonErrors], and the
    properties of the two-phase handshake (seed exchange, then signon info).

    JavaScript objects whose properties are assigned at run time (the
    [system] object, the result of a signon) are finite maps from property
    names to values.  The asynchronous methods are computations in a small
    monad that threads the service object and a history of the calls made to
    the collaborators, and that ends resolved, rejected or pending.  What
    the outside decides in a run (how [connect()] settles, the client seed,
    whether [sendPacket] throws, the replies of the host) is an argument of
    the run.  The [debug] and [error] loggers write to the console only and
    are left out. *)

From Stdlib Require Import ZArith String List.
From Stdlib.Strings Require Import Byte.
From stdpp Require Import base option list gmap strings pretty.

Local Open Scope Z_scope.
Local Open Scope string_scope.

(** ** JavaScript values *)

(** The values that flow through the service.  Numbers are the integers read
    from packet fields; buffers are byte sequences; [VHandle] stands for a
    host object that is only passed around (a connection, a socket). *)
Inductive value : Type :=
| VUndefined
| VNumber (n : Z)
| VString (s : string)
| VBoolean (b : bool)
| VBuffer (bytes : list byte)
| VError (message : string)
| VHandle (id : N).

(** An object with dynamically assigned properties. *)
Abbreviation JsObject := (gmap string value).

(** [o.k]: a property that was never assigned reads as [undefined]. *)
Definition get_prop (o : JsObject) (k : string) : value :=
  default VUndefined (o !! k).

(** [o.k = v]. *)
Definition set_prop (k : string) (v : value) (o : JsObject) : JsObject :=
  <[k := v]> o.

(** [v === n] for a number literal [n]. *)
Definition strict_eq_number (v : value) (n : Z) : bool :=
  match v with
  | VNumber m => Z.eqb m n
  | _ => false
  end.

(** [v !== 0]. *)
Definition strict_ne_zero (v : value) : bool := negb (strict_eq_number v 0).

(** [needle] occurs in [hay]. *)
Definition contains (needle hay : string) : Prop :=
  ∃ pre post, hay = pre +:+ needle +:+ post.

(** ** SignonErrors *)

Record ErrorEntry : Type := { id : Z; msg : string }.

Module SignonErrors.

Definition PASSWORD_LENGTH_NOT_VALID : ErrorEntry :=
  {| id := 0x00010008; msg := "Password length not valid" |}.

Definition USERID_UNKNOWN : ErrorEntry :=
  {| id := 0x00020001; msg := "Unknown user ID" |}.

Definition USERID_DISABLED : ErrorEntry :=
  {| id := 0x00020002; msg := "User ID is disabled" |}.

Definition PASSWORD_INCORRECT : ErrorEntry :=
  {| id := 0x0003000B; msg := "Incorrect password" |}.

Definition PASSWORD_INCORRECT_DISABLE : ErrorEntry :=
  {| id := 0x0003000C;
     msg := "Incorrect password, user ID will be disabled on the next incorrect password" |}.

(** The [switch] compares with [===], case by case from the top, and the
    message starts as ['Unknown error']. *)
Definition get (code : value) : string :=
  if strict_eq_number code (id PASSWORD_LENGTH_NOT_VALID) then msg PASSWORD_LENGTH_NOT_VALID
  else if strict_eq_number code (id USERID_UNKNOWN) then msg USERID_UNKNOWN
  else if strict_eq_number code (id USERID_DISABLED) then msg USERID_DISABLED
  else if strict_eq_number code (id PASSWORD_INCORRECT) then msg PASSWORD_INCORRECT
  else if strict_eq_number code (id PASSWORD_INCORRECT_DISABLE) then msg PASSWORD_INCORRECT_DISABLE
  else "Unknown error".

(** The five codes of the table. *)
Definition known_ids : list Z :=
  [id PASSWORD_LENGTH_NOT_VALID; id USERID_UNKNOWN; id USERID_DISABLED;
   id PASSWORD_INCORRECT; id PASSWORD_INCORRECT_DISABLE].

End SignonErrors.

(** ** Collaborators

    The packet classes, the password encryptor and the run-time's string
    conversion of a buffer are not part of signon.js; the service is
    parametric in them.  An accessor of a response is a function of the
    bytes the response wraps.  The server seed is a buffer: the handler calls
    [resp.serverSeed.toString('hex')] on it.  An accessor gives what the
    getter returns when it returns; that building or reading a response may
    throw instead is the [throws] argument of the module [Listeners]
    below. *)
Class Collaborators : Type := {
  (** [Buffer.prototype.toString()] *)
  buffer_to_string : list byte → string;
  (** accessors of [new SignonSeedExchangeResponse(data)] *)
  seed_rc : list byte → value;
  seed_serverLevel : list byte → value;
  seed_serverVersion : list byte → value;
  seed_passwordLevel : list byte → value;
  seed_serverSeed : list byte → list byte;
  (** accessors of [new SignonInfoResponse(data)] *)
  info_rc : list byte → value;
  info_serverCCSID : list byte → value;
  info_currentSignonDate : list byte → value;
  info_lastSignonDate : list byte → value;
  info_passwordExpirationDate : list byte → value;
  info_expirationWarning : list byte → value;
  info_userId : list byte → value;
  (** [new PasswordEncryptor(passwordLevel).encrypt(userId, password, seed, serverSeed)]:
      the blob, or the exception it throws *)
  encrypt : value → value → value → value → value → value + value
}.

(** ** Outcomes, events and the service object *)

(** How an asynchronous computation ends: the promise is resolved, it is
    rejected with the thrown value, or it is never settled. *)
Inductive outcome (A : Type) : Type :=
| Resolved (a : A)
| Rejected (err : value)
| Pending.
Arguments Resolved {A} a.
Arguments Rejected {A} err.
Arguments Pending {A}.

(** The two listeners the service registers for the next ['data'] event. *)
Inductive handler : Type :=
| HandleSeedExchangeResponse
| HandleInfoResponse.

(** The outbound packets, as the constructor calls that build them.
    [new SignonSeedExchangeRequest()] takes no argument and draws its own
    client seed, which [req.clientSeed] reads back. *)
Inductive request : Type :=
| SignonSeedExchangeRequest (clientSeed : value)
| SignonInfoRequest (userId encryptedPassword serverLevel socket : value).

(** Calls to the collaborators, in the order the service makes them. *)
Inductive event : Type :=
| EvConnect
| EvOnce (h : handler)
| EvSendPacket (req : request)
| EvEncrypt (passwordLevel userId password seed serverSeed : value)
| EvParse (h : handler) (data : list byte).

(** The fields of [this] that signon.js reads or writes. *)
Record Signon : Type := {
  system : JsObject;
  connection : value;
  seed : value;
  socket : value
}.

(** The service object together with the calls made so far, each paired
    with the service object as it was when the call was made. *)
Record config : Type := {
  this : Signon;
  history : list (event * Signon)
}.

(** What the outside decides in one run: how [connect()] settles, the seed
    drawn for the seed-exchange request, whether [sendPacket] throws, and the
    first ['data'] event that follows a request ([None]: the host stays
    silent). *)
Record World : Type := {
  connect : outcome value;
  clientSeed : value;
  sendPacket : request → option value;
  reply : request → option (list byte)
}.

(** ** The monad of service computations *)

Definition M (A : Type) : Type := config → outcome A * config.

#[export] Instance M_ret : MRet M := λ A a c, (Resolved a, c).

#[export] Instance M_bind : MBind M := λ A B f m c,
  match m c with
  | (Resolved a, c') => f a c'
  | (Rejected e, c') => (Rejected e, c')
  | (Pending, c') => (Pending, c')
  end.

(** [throw e], or [reject(e)] as the last act of a promise body. *)
Definition throw {A : Type} (e : value) : M A := λ c, (Rejected e, c).

(** [await p] for a promise that settles as [o]. *)
Definition await {A : Type} (o : outcome A) : M A := λ c, (o, c).

(** [try { m } catch (err) { h err }] *)
Definition try_catch {A : Type} (m : M A) (h : value → M A) : M A := λ c,
  match m c with
  | (Rejected e, c') => h e c'
  | r => r
  end.

Definition get_this : M Signon := λ c, (Resolved (this c), c).

Definition put_this (s : Signon) : M unit := λ c,
  (Resolved tt, {| this := s; history := history c |}).

(** Record a call to a collaborator. *)
Definition emit (e : event) : M unit := λ c,
  (Resolved tt, {| this := this c; history := history c ++ [(e, this c)] |}).

(** [this.system.k = v] *)
Definition assign_system (k : string) (v : value) : M unit :=
  s ← get_this;
  put_this {| system := set_prop k v (system s); connection := connection s;
              seed := seed s; socket := socket s |}.

(** [this.connection = v] *)
Definition assign_connection (v : value) : M unit :=
  s ← get_this;
  put_this {| system := system s; connection := v; seed := seed s; socket := socket s |}.

(** [this.seed = v] *)
Definition assign_seed (v : value) : M unit :=
  s ← get_this;
  put_this {| system := system s; connection := connection s; seed := v; socket := socket s |}.

(** [req.clientSeed] *)
Definition req_clientSeed (req : request) : value :=
  match req with
  | SignonSeedExchangeRequest cs => cs
  | SignonInfoRequest _ _ _ _ => VUndefined
  end.

(** ** The Signon service *)

Section Service.
Context `{Collaborators}.
Variable w : World.

(** The string a value turns into when it is concatenated to a string.
    Numbers print in decimal, which is what JavaScript prints for the
    integers of packet fields. *)
Definition to_string (v : value) : string :=
  match v with
  | VUndefined => "undefined"
  | VNumber n => pretty n
  | VString s => s
  | VBoolean true => "true"
  | VBoolean false => "false"
  | VBuffer b => buffer_to_string b
  | VError m => "Error: " +:+ m
  | VHandle _ => "[object Object]"
  end.

(** [this.system.hostName] *)
Definition hostName (s : Signon) : value := get_prop (system s) "hostName".

(** [this.sendPacket(req)]: the packet is handed to the socket, which may
    throw. *)
Definition do_sendPacket (req : request) : M unit :=
  emit (EvSendPacket req);;
  match sendPacket w req with
  | Some e => throw e
  | None => mret tt
  end.

(** The ['data'] event the listener registered with [socket.once] waits
    for. *)
Definition next_data (req : request) : M (list byte) :=
  await (match reply w req with
         | Some data => Resolved data
         | None => Pending
         end).

(** [handleSeedExchangeResponse(resolve, reject, data)]: the result is the
    value passed to [resolve], a rejection is the error passed to
    [reject]. *)
Definition handleSeedExchangeResponse (data : list byte) : M value :=
  s ← get_this;
  if (length data <? 24)%nat then
    throw (VError ("Invalid seed exchange response received from "
                   +:+ to_string (hostName s)))
  else
    emit (EvParse HandleSeedExchangeResponse data);;
    if strict_ne_zero (seed_rc data) then
      throw (VError ("Error received during signon seed exchange with "
                     +:+ to_string (hostName s) +:+ " : "
                     +:+ to_string (seed_rc data)))
    else
      assign_system "serverLevel" (seed_serverLevel data);;
      assign_system "serverVersion" (seed_serverVersion data);;
      assign_system "passwordLevel" (seed_passwordLevel data);;
      assign_system "passwordAttributesSet" (VBoolean true);;
      mret (VBuffer (seed_serverSeed data)).

(** The object literal built by [handleInfoResponse]. *)
Definition session_attributes (data : list byte) : JsObject :=
  set_prop "userId" (info_userId data)
    (set_prop "expirationWarning" (info_expirationWarning data)
       (set_prop "passwordExpirationDate" (info_passwordExpirationDate data)
          (set_prop "lastSignonDate" (info_lastSignonDate data)
             (set_prop "currentSignonDate" (info_currentSignonDate data)
                (set_prop "serverCCSID" (info_serverCCSID data) ∅))))).

(** [handleInfoResponse(resolve, reject, data)] *)
Definition handleInfoResponse (data : list byte) : M JsObject :=
  s ← get_this;
  if (length data <? 24)%nat then
    throw (VError ("Invalid info response received from "
                   +:+ to_string (hostName s)))
  else
    emit (EvParse HandleInfoResponse data);;
    if strict_ne_zero (info_rc data) then
      throw (VError ("Error received during signon info with "
                     +:+ to_string (hostName s) +:+ " : "
                     +:+ SignonErrors.get (info_rc data)))
    else
      mret (session_attributes data).

(** [exchangeSeeds()] *)
Definition exchangeSeeds : M value :=
  let req := SignonSeedExchangeRequest (clientSeed w) in
  assign_seed (req_clientSeed req);;
  emit (EvOnce HandleSeedExchangeResponse);;
  do_sendPacket req;;
  data ← next_data req;
  handleSeedExchangeResponse data.

(** [info(serverSeed)] *)
Definition info (serverSeed : value) : M JsObject :=
  s ← get_this;
  let userId := get_prop (system s) "userId" in
  let password := get_prop (system s) "password" in
  emit (EvEncrypt (get_prop (system s) "passwordLevel") userId password
                  (seed s) serverSeed);;
  encryptedPassword ←
    match encrypt (get_prop (system s) "passwordLevel") userId password
                  (seed s) serverSeed with
    | inl blob => mret blob
    | inr e => throw e
    end;
  let req := SignonInfoRequest userId encryptedPassword
                               (get_prop (system s) "serverLevel") (socket s) in
  emit (EvOnce HandleInfoResponse);;
  do_sendPacket req;;
  data ← next_data req;
  handleInfoResponse data.

(** The [try] block of [signon()]. *)
Definition signon_body : M JsObject :=
  c ← (emit EvConnect;; await (connect w));
  assign_connection c;;
  serverSeed ← exchangeSeeds;
  info serverSeed.

(** [signon()]: the [catch] block logs the error and throws it again. *)
Definition signon : M JsObject :=
  try_catch signon_body (λ err, throw err).

(** One run of [signon()] on a service object, from an empty history. *)
Definition run_signon (s : Signon) : outcome JsObject * config :=
  signon {| this := s; history := [] |}.

End Service.

(** ** Reading a history *)

(** The calls of a run, without the snapshots. *)
Definition calls (c : config) : list event := (history c).*1.

Definition is_encrypt (e : event) : bool :=
  match e with
  | EvEncrypt _ _ _ _ _ => true
  | _ => false
  end.

Definition is_info_request (e : event) : bool :=
  match e with
  | EvSendPacket (SignonInfoRequest _ _ _ _) => true
  | _ => false
  end.


(** Whether a run made a call of some kind, and how many. *)
Definition called (p : event → bool) (c : config) : bool :=
  existsb p (calls c).


Definition is_seed_request (e : event) : bool :=
  match e with
  | EvSendPacket (SignonSeedExchangeRequest _) => true
  | _ => false
  end.

(** [this.system.passwordAttributesSet] is [true]. *)
Definition passwordAttributesSet (s : Signon) : Prop :=
  system s !! "passwordAttributesSet" = Some (VBoolean true).

(** ** The states a run goes through *)

Section Stages.
Context `{Collaborators}.
Variable w : World.

(** The four assignments of a successful seed exchange, on the system. *)
Definition negotiated (data : list byte) (o : JsObject) : JsObject :=
  set_prop "passwordAttributesSet" (VBoolean true)
    (set_prop "passwordLevel" (seed_passwordLevel data)
       (set_prop "serverVersion" (seed_serverVersion data)
          (set_prop "serverLevel" (seed_serverLevel data) o))).

Definition with_system (o : JsObject) (s : Signon) : Signon :=
  {| system := o; connection := connection s; seed := seed s; socket := socket s |}.

(** A configuration after one more call. *)
Definition logged (e : event) (c : config) : config :=
  {| this := this c; history := history c ++ [(e, this c)] |}.

(** The configuration in which [connect()] is awaited. *)
Definition connecting (s : Signon) : config :=
  {| this := s; history := [(EvConnect, s)] |}.

(** The request of phase 1. *)
Definition seed_request : request := SignonSeedExchangeRequest (clientSeed w).

(** The service object once the connection is stored and the client seed
    is kept. *)
Definition seeded (cn : value) (s : Signon) : Signon :=
  {| system := system s; connection := cn; seed := clientSeed w; socket := socket s |}.

(** The configuration in which the seed-exchange reply is awaited. *)
Definition awaiting_seed_reply (cn : value) (s : Signon) : config :=
  {| this := seeded cn s;
     history := [(EvConnect, s);
                 (EvOnce HandleSeedExchangeResponse, seeded cn s);
                 (EvSendPacket seed_request, seeded cn s)] |}.

(** The call to the encryptor that [info] makes on a service object. *)
Definition encrypt_call (serverSeed : value) (s : Signon) : event :=
  EvEncrypt (get_prop (system s) "passwordLevel") (get_prop (system s) "userId")
            (get_prop (system s) "password") (seed s) serverSeed.

Definition encrypt_result (serverSeed : value) (s : Signon) : value + value :=
  encrypt (get_prop (system s) "passwordLevel") (get_prop (system s) "userId")
          (get_prop (system s) "password") (seed s) serverSeed.

(** The request of phase 2. *)
Definition info_request (blob : value) (s : Signon) : request :=
  SignonInfoRequest (get_prop (system s) "userId") blob
                    (get_prop (system s) "serverLevel") (socket s).

(** The configuration in which the info reply is awaited. *)
Definition awaiting_info_reply (serverSeed blob : value) (c : config) : config :=
  logged (EvSendPacket (info_request blob (this c)))
    (logged (EvOnce HandleInfoResponse)
       (logged (encrypt_call serverSeed (this c)) c)).

(** The configuration in which phase 2 starts after the reply [data]. *)
Definition negotiated_config (cn : value) (s : Signon) (data : list byte) : config :=
  {| this := with_system (negotiated data (system s)) (seeded cn s);
     history := history (awaiting_seed_reply cn s)
                ++ [(EvParse HandleSeedExchangeResponse data, seeded cn s)] |}.

End Stages.

(** ** The runs of [signon()]

    Every way a run can go, with the outcome and the configuration it ends
    in: [run_signon_shape] below shows that [run_signon] always is one of
    them. *)

Section Shapes.
Context `{Collaborators}.
Variable w : World.
Variable s : Signon.

Inductive run_shape : outcome JsObject * config → Prop :=
| shape_connect_rejected (e : value) :
    connect w = Rejected e →
    run_shape (Rejected e, connecting s)
| shape_connect_pending :
    connect w = Pending →
    run_shape (Pending, connecting s)
| shape_seed_request_throws (cn e : value) :
    connect w = Resolved cn →
    sendPacket w (seed_request w) = Some e →
    run_shape (Rejected e, awaiting_seed_reply w cn s)
| shape_seed_reply_missing (cn : value) :
    connect w = Resolved cn →
    sendPacket w (seed_request w) = None →
    reply w (seed_request w) = None →
    run_shape (Pending, awaiting_seed_reply w cn s)
| shape_seed_reply_short (cn : value) (data : list byte) :
    connect w = Resolved cn →
    sendPacket w (seed_request w) = None →
    reply w (seed_request w) = Some data →
    (length data < 24)%nat →
    run_shape
      (Rejected (VError ("Invalid seed exchange response received from "
                         +:+ to_string (hostName s))),
       awaiting_seed_reply w cn s)
| shape_seed_reply_refused (cn : value) (data : list byte) :
    connect w = Resolved cn →
    sendPacket w (seed_request w) = None →
    reply w (seed_request w) = Some data →
    (24 ≤ length data)%nat →
    seed_rc data ≠ VNumber 0 →
    run_shape
      (Rejected (VError ("Error received during signon seed exchange with "
                         +:+ to_string (hostName s) +:+ " : "
                         +:+ to_string (seed_rc data))),
       logged (EvParse HandleSeedExchangeResponse data) (awaiting_seed_reply w cn s))
| shape_encrypt_throws (cn : value) (data : list byte) (e : value) :
    connect w = Resolved cn →
    sendPacket w (seed_request w) = None →
    reply w (seed_request w) = Some data →
    (24 ≤ length data)%nat →
    seed_rc data = VNumber 0 →
    encrypt_result (VBuffer (seed_serverSeed data)) (this (negotiated_config w cn s data)) = inr e →
    run_shape
      (Rejected e,
       logged (encrypt_call (VBuffer (seed_serverSeed data)) (this (negotiated_config w cn s data)))
              (negotiated_config w cn s data))
| shape_info_request_throws (cn : value) (data : list byte) (blob e : value) :
    connect w = Resolved cn →
    sendPacket w (seed_request w) = None →
    reply w (seed_request w) = Some data →
    (24 ≤ length data)%nat →
    seed_rc data = VNumber 0 →
    encrypt_result (VBuffer (seed_serverSeed data)) (this (negotiated_config w cn s data)) = inl blob →
    sendPacket w (info_request blob (this (negotiated_config w cn s data))) = Some e →
    run_shape
      (Rejected e,
       awaiting_info_reply (VBuffer (seed_serverSeed data)) blob (negotiated_config w cn s data))
| shape_info_reply_missing (cn : value) (data : list byte) (blob : value) :
    connect w = Resolved cn →
    sendPacket w (seed_request w) = None →
    reply w (seed_request w) = Some data →
    (24 ≤ length data)%nat →
    seed_rc data = VNumber 0 →
    encrypt_result (VBuffer (seed_serverSeed data)) (this (negotiated_config w cn s data)) = inl blob →
    sendPacket w (info_request blob (this (negotiated_config w cn s data))) = None →
    reply w (info_request blob (this (negotiated_config w cn s data))) = None →
    run_shape
      (Pending,
       awaiting_info_reply (VBuffer (seed_serverSeed data)) blob (negotiated_config w cn s data))
| shape_info_reply_short (cn : value) (data : list byte) (blob : value) (data2 : list byte) :
    connect w = Resolved cn →
    sendPacket w (seed_request w) = None →
    reply w (seed_request w) = Some data →
    (24 ≤ length data)%nat →
    seed_rc data = VNumber 0 →
    encrypt_result (VBuffer (seed_serverSeed data)) (this (negotiated_config w cn s data)) = inl blob →
    sendPacket w (info_request blob (this (negotiated_config w cn s data))) = None →
    reply w (info_request blob (this (negotiated_config w cn s data))) = Some data2 →
    (length data2 < 24)%nat →
    run_shape
      (Rejected (VError ("Invalid info response received from "
                         +:+ to_string (hostName s))),
       awaiting_info_reply (VBuffer (seed_serverSeed data)) blob (negotiated_config w cn s data))
| shape_info_reply_refused (cn : value) (data : list byte) (blob : value) (data2 : list byte) :
    connect w = Resolved cn →
    sendPacket w (seed_request w) = None →
    reply w (seed_request w) = Some data →
    (24 ≤ length data)%nat →
    seed_rc data = VNumber 0 →
    encrypt_result (VBuffer (seed_serverSeed data)) (this (negotiated_config w cn s data)) = inl blob →
    sendPacket w (info_request blob (this (negotiated_config w cn s data))) = None →
    reply w (info_request blob (this (negotiated_config w cn s data))) = Some data2 →
    (24 ≤ length data2)%nat →
    info_rc data2 ≠ VNumber 0 →
    run_shape
      (Rejected (VError ("Error received during signon info with "
                         +:+ to_string (hostName s) +:+ " : "
                         +:+ SignonErrors.get (info_rc data2))),
       logged (EvParse HandleInfoResponse data2)
         (awaiting_info_reply (VBuffer (seed_serverSeed data)) blob (negotiated_config w cn s data)))
| shape_info_reply_accepted (cn : value) (data : list byte) (blob : value) (data2 : list byte) :
    connect w = Resolved cn →
    sendPacket w (seed_request w) = None →
    reply w (seed_request w) = Some data →
    (24 ≤ length data)%nat →
    seed_rc data = VNumber 0 →
    encrypt_result (VBuffer (seed_serverSeed data)) (this (negotiated_config w cn s data)) = inl blob →
    sendPacket w (info_request blob (this (negotiated_config w cn s data))) = None →
    reply w (info_request blob (this (negotiated_config w cn s data))) = Some data2 →
    (24 ≤ length data2)%nat →
    info_rc data2 = VNumber 0 →
    run_shape
      (Resolved (session_attributes data2),
       logged (EvParse HandleInfoResponse data2)
         (awaiting_info_reply (VBuffer (seed_serverSeed data)) blob (negotiated_config w cn s data))).

End Shapes.

(** ** A sample packet layout and sample runs

    Concrete collaborators on which the service can be run: integers are
    read big-endian at byte offsets of the reply, and the sample encryptor
    joins the two seeds. *)

Fixpoint big_endian (acc : Z) (bs : list byte) : Z :=
  match bs with
  | [] => acc
  | b :: bs' => big_endian (acc * 256 + Z.of_N (Byte.to_N b)) bs'
  end.

Definition slice (offset len : nat) (data : list byte) : list byte :=
  take len (drop offset data).

Definition get_uint (offset len : nat) (data : list byte) : value :=
  if (offset + len <=? length data)%nat
  then VNumber (big_endian 0 (slice offset len data))
  else VUndefined.

Definition sample_encrypt (level userId password seed serverSeed : value)
  : value + value :=
  match level, seed, serverSeed with
  | VNumber _, VBuffer cs, VBuffer ss => inl (VBuffer (cs ++ ss))
  | _, _, _ => inr (VError "Unsupported password level")
  end.

Definition sample_collaborators : Collaborators := {|
  buffer_to_string := string_of_list_byte;
  seed_rc := get_uint 20 4;
  seed_serverVersion := get_uint 24 4;
  seed_serverLevel := get_uint 28 2;
  seed_passwordLevel := get_uint 30 1;
  seed_serverSeed := slice 31 8;
  info_rc := get_uint 20 4;
  info_serverCCSID := get_uint 24 4;
  info_currentSignonDate := λ data, VBuffer (slice 28 8 data);
  info_lastSignonDate := λ data, VBuffer (slice 36 8 data);
  info_passwordExpirationDate := λ data, VBuffer (slice 44 8 data);
  info_expirationWarning := get_uint 52 1;
  info_userId := λ data, VString (string_of_list_byte (slice 53 5 data));
  encrypt := sample_encrypt
|}.

Definition zeros (n : nat) : list byte := replicate n x00.

(** A seed-exchange reply of 39 bytes: status 0, version 0x00070500,
    level 1, password level 0, server seed 09..10. *)
Definition seed_reply_ok : list byte :=
  zeros 20 ++ [x00; x00; x00; x00] ++ [x00; x07; x05; x00] ++ [x00; x01]
  ++ [x00] ++ [x09; x0a; x0b; x0c; x0d; x0e; x0f; x10].

(** A seed-exchange reply of 24 bytes with status 0x00010001. *)
Definition seed_reply_refused : list byte :=
  zeros 20 ++ [x00; x01; x00; x01].

(** A reply of 10 bytes. *)
Definition short_reply : list byte := zeros 10.

(** An info reply: status 0, CCSID 37, user id ALICE. *)
Definition info_reply_ok : list byte :=
  zeros 20 ++ [x00; x00; x00; x00] ++ [x00; x00; x00; x25] ++ zeros 24
  ++ [x00] ++ [x41; x4c; x49; x43; x45].

(** An info reply of 24 bytes with status 0x0003000B. *)
Definition info_reply_bad_password : list byte :=
  zeros 20 ++ [x00; x03; x00; x0b].

(** An info reply of 24 bytes with a status outside the table. *)
Definition info_reply_other : list byte :=
  zeros 20 ++ [x00; x00; x00; x07].

(** A system that has not been signed on yet. *)
Definition sample_system : JsObject :=
  set_prop "password" (VString "secret")
    (set_prop "userId" (VString "alice")
       (set_prop "hostName" (VString "as400.example.com") ∅)).

Definition sample_service : Signon := {|
  system := sample_system;
  connection := VUndefined;
  seed := VUndefined;
  socket := VHandle 1
|}.

Definition sample_config : config := {| this := sample_service; history := [] |}.

(** A host that answers the seed exchange with [r1] and the info request
    with [r2]. *)
Definition sample_world (r1 r2 : option (list byte)) : World := {|
  connect := Resolved (VHandle 2);
  clientSeed := VBuffer [x01; x02; x03; x04; x05; x06; x07; x08];
  sendPacket := λ _, None;
  reply := λ req,
    match req with
    | SignonSeedExchangeRequest _ => r1
    | SignonInfoRequest _ _ _ _ => r2
    end
|}.


(** A host whose socket refuses every packet. *)
Definition broken_pipe_world : World := {|
  connect := Resolved (VHandle 2);
  clientSeed := VBuffer [x01; x02; x03; x04; x05; x06; x07; x08];
  sendPacket := λ _, Some (VError "write EPIPE");
  reply := λ _, None
|}.

(** ** Listeners whose packet accessors can throw

    The two handlers run as listeners of the socket's ['data'] event: after
    the promise's executor has returned, and without a [try].  An exception
    thrown while a response is built or read therefore leaves through the
    event emitter; neither [resolve] nor [reject] is called, and the promise
    of the phase is never settled.  Whether the packet classes throw is not
    decided by signon.js, so it is an argument: [throws a data] is the
    exception that the access [a] to a response built on [data] throws, if
    it throws.  [Listeners] is the service with such accesses, statement by
    statement; when nothing throws it is the service above. *)

(** The accesses the handlers make to a response: its construction and its
    getters. *)
Inductive access : Type :=
| NewSignonSeedExchangeResponse
| SeedRc
| SeedServerLevel
| SeedServerVersion
| SeedPasswordLevel
| SeedServerSeed
| NewSignonInfoResponse
| InfoRc
| InfoServerCCSID
| InfoCurrentSignonDate
| InfoLastSignonDate
| InfoPasswordExpirationDate
| InfoExpirationWarning
| InfoUserId.

(** An exception that leaves a listener: the promise stays unsettled. *)
Definition uncaught {A : Type} (e : value) : M A := λ c, (Pending, c).


Module Listeners.
Section Listeners.
Context `{Collaborators}.
Variable w : World.
Variable throws : access → list byte → option value.

(** The access [a] to the response on [data], which yields [v] unless it
    throws. *)
Definition read (a : access) (data : list byte) (v : value) : M value :=
  match throws a data with
  | Some e => uncaught e
  | None => mret v
  end.

(** [handleSeedExchangeResponse(resolve, reject, data)], lines 79 to 104:
    the response is built (85), [resp.rc] is read (86); on status 0 each of
    the three levels is read and assigned in turn (91 to 93), the flag is
    set (94), and [resp.serverSeed] is read (98) before [resolve] is called
    (101). *)
Definition handleSeedExchangeResponse (data : list byte) : M value :=
  s ← get_this;
  if (length data <? 24)%nat then
    throw (VError ("Invalid seed exchange response received from "
                   +:+ to_string (hostName s)))
  else
    emit (EvParse HandleSeedExchangeResponse data);;
    read NewSignonSeedExchangeResponse data VUndefined;;
    rc ← read SeedRc data (seed_rc data);
    if strict_ne_zero rc then
      throw (VError ("Error received during signon seed exchange with "
                     +:+ to_string (hostName s) +:+ " : "
                     +:+ to_string rc))
    else
      serverLevel ← read SeedServerLevel data (seed_serverLevel data);
      assign_system "serverLevel" serverLevel;;
      serverVersion ← read SeedServerVersion data (seed_serverVersion data);
      assign_system "serverVersion" serverVersion;;
      passwordLevel ← read SeedPasswordLevel data (seed_passwordLevel data);
      assign_system "passwordLevel" passwordLevel;;
      assign_system "passwordAttributesSet" (VBoolean true);;
      serverSeed ← read SeedServerSeed data (VBuffer (seed_serverSeed data));
      mret serverSeed.

(** [handleInfoResponse(resolve, reject, data)], lines 106 to 130: the
    response is built (112), [resp.rc] is read (113); on status 0 the six
    getters of the object literal are read in the order they are written
    (119 to 124). *)
Definition handleInfoResponse (data : list byte) : M JsObject :=
  s ← get_this;
  if (length data <? 24)%nat then
    throw (VError ("Invalid info response received from "
                   +:+ to_string (hostName s)))
  else
    emit (EvParse HandleInfoResponse data);;
    read NewSignonInfoResponse data VUndefined;;
    rc ← read InfoRc data (info_rc data);
    if strict_ne_zero rc then
      throw (VError ("Error received during signon info with "
                     +:+ to_string (hostName s) +:+ " : "
                     +:+ SignonErrors.get rc))
    else
      serverCCSID ← read InfoServerCCSID data (info_serverCCSID data);
      currentSignonDate ← read InfoCurrentSignonDate data (info_currentSignonDate data);
      lastSignonDate ← read InfoLastSignonDate data (info_lastSignonDate data);
      passwordExpirationDate ←
        read InfoPasswordExpirationDate data (info_passwordExpirationDate data);
      expirationWarning ← read InfoExpirationWarning data (info_expirationWarning data);
      userId ← read InfoUserId data (info_userId data);
      mret (set_prop "userId" userId
              (set_prop "expirationWarning" expirationWarning
                 (set_prop "passwordExpirationDate" passwordExpirationDate
                    (set_prop "lastSignonDate" lastSignonDate
                       (set_prop "currentSignonDate" currentSignonDate
                          (set_prop "serverCCSID" serverCCSID ∅)))))).

(** [exchangeSeeds()] *)
Definition exchangeSeeds : M value :=
  let req := SignonSeedExchangeRequest (clientSeed w) in
  assign_seed (req_clientSeed req);;
  emit (EvOnce HandleSeedExchangeResponse);;
  do_sendPacket w req;;
  data ← next_data w req;
  handleSeedExchangeResponse data.

(** [info(serverSeed)] *)
Definition info (serverSeed : value) : M JsObject :=
  s ← get_this;
  let userId := get_prop (system s) "userId" in
  let password := get_prop (system s) "password" in
  emit (EvEncrypt (get_prop (system s) "passwordLevel") userId password
                  (seed s) serverSeed);;
  encryptedPassword ←
    match encrypt (get_prop (system s) "passwordLevel") userId password
                  (seed s) serverSeed with
    | inl blob => mret blob
    | inr e => throw e
    end;
  let req := SignonInfoRequest userId encryptedPassword
                               (get_prop (system s) "serverLevel") (socket s) in
  emit (EvOnce HandleInfoResponse);;
  do_sendPacket w req;;
  data ← next_data w req;
  handleInfoResponse data.

(** The [try] block of [signon()]. *)
Definition signon_body : M JsObject :=
  c ← (emit EvConnect;; await (connect w));
  assign_connection c;;
  serverSeed ← exchangeSeeds;
  info serverSeed.

(** [signon()] *)
Definition signon : M JsObject :=
  try_catch signon_body (λ err, throw err).

(** One run of [signon()] on a service object, from an empty history. *)
Definition run_signon (s : Signon) : outcome JsObject * config :=
  signon {| this := s; history := [] |}.

(** The first exception among the accesses [l] to the response on [data]. *)
Fixpoint first_throw (data : list byte) (l : list access) : option value :=
  match l with
  | [] => None
  | a :: l' =>
      match throws a data with
      | Some e => Some e
      | None => first_throw data l'
      end
  end.

(** The exception that leaves the seed-exchange listener on [data], with
    the number of assignments to the system made before it: none before the
    server level is read, one before the server version is read, two before
    the password level is read, and all four before the server seed is
    read. *)
Definition seed_listener_throws (data : list byte) : option (nat * value) :=
  if (length data <? 24)%nat then None
  else
    match first_throw data [NewSignonSeedExchangeResponse; SeedRc] with
    | Some e => Some (0%nat, e)
    | None =>
        if strict_ne_zero (seed_rc data) then None
        else
          match throws SeedServerLevel data with
          | Some e => Some (0%nat, e)
          | None =>
              match throws SeedServerVersion data with
              | Some e => Some (1%nat, e)
              | None =>
                  match throws SeedPasswordLevel data with
                  | Some e => Some (2%nat, e)
                  | None =>
                      match throws SeedServerSeed data with
                      | Some e => Some (4%nat, e)
                      | None => None
                      end
                  end
              end
          end
    end.

(** The exception that leaves the info listener on [data]. *)
Definition info_listener_throws (data : list byte) : option value :=
  if (length data <? 24)%nat then None
  else
    match first_throw data [NewSignonInfoResponse; InfoRc] with
    | Some e => Some e
    | None =>
        if strict_ne_zero (info_rc data) then None
        else
          first_throw data
            [InfoServerCCSID; InfoCurrentSignonDate; InfoLastSignonDate;
             InfoPasswordExpirationDate; InfoExpirationWarning; InfoUserId]
    end.

End Listeners.
End Listeners.

(** The system after the first [k] assignments of the seed-exchange handler
    (the fourth follows the third without an access in between). *)
Definition written `{Collaborators} (k : nat) (data : list byte) (o : JsObject)
  : JsObject :=
  match k with
  | 0%nat => o
  | 1%nat => set_prop "serverLevel" (seed_serverLevel data) o
  | 2%nat =>
      set_prop "serverVersion" (seed_serverVersion data)
        (set_prop "serverLevel" (seed_serverLevel data) o)
  | _ => negotiated data o
  end.

(** A packet layer whose seed-exchange response cannot be built. *)
Definition seed_response_throws : access → list byte → option value :=
  λ a _,
    match a with
    | NewSignonSeedExchangeResponse => Some (VError "Index out of range")
    | _ => None
    end.

(** A packet layer whose seed-exchange response has no server version. *)
Definition server_version_throws : access → list byte → option value :=
  λ a _,
    match a with
    | SeedServerVersion => Some (VError "Index out of range")
    | _ => None
    end.


(** The listener that the service registers before it sends a request. *)
Definition handler_of (req : request) : handler :=
  match req with
  | SignonSeedExchangeRequest _ => HandleSeedExchangeResponse
  | SignonInfoRequest _ _ _ _ => HandleInfoResponse
  end.

(** The kind of a call: which collaborator it goes to, and for which of the
    two replies. *)
Inductive call_kind : Type :=
| KConnect
| KOnce (h : handler)
| KSend (h : handler)
| KParse (h : handler)
| KEncrypt.

Definition kind_of (e : event) : call_kind :=
  match e with
  | EvConnect => KConnect
  | EvOnce h => KOnce h
  | EvSendPacket req => KSend (handler_of req)
  | EvEncrypt _ _ _ _ _ => KEncrypt
  | EvParse h _ => KParse h
  end.

(** The calls of a run that goes all the way, in order. *)
Definition protocol : list call_kind :=
  [KConnect;
   KOnce HandleSeedExchangeResponse; KSend HandleSeedExchangeResponse;
   KParse HandleSeedExchangeResponse;
   KEncrypt;
   KOnce HandleInfoResponse; KSend HandleInfoResponse;
   KParse HandleInfoResponse].

(** The four properties of the system that a seed exchange assigns. *)
Definition negotiation_keys : list string :=
  ["serverLevel"; "serverVersion"; "passwordLevel"; "passwordAttributesSet"].

(** A second accepted seed-exchange reply: version 0x00070600, level 2,
    password level 2, server seed 11..18. *)
Definition seed_reply_newer : list byte :=
  zeros 20 ++ [x00; x00; x00; x00] ++ [x00; x07; x06; x00] ++ [x00; x02]
  ++ [x02] ++ [x11; x12; x13; x14; x15; x16; x17; x18].

(** A system that an earlier signon has left its negotiation on. *)
Definition stale_system : JsObject :=
  set_prop "passwordAttributesSet" (VBoolean true)
    (set_prop "passwordLevel" (VNumber 2)
       (set_prop "serverLevel" (VNumber 9) sample_system)).

(** ** Basic facts *)

Section Facts.
Context `{Collaborators}.

Lemma contains_middle (pre x post : string) : contains x (pre +:+ x +:+ post).
Proof. by exists pre, post. Qed.

Lemma append_empty_r (x : string) : x +:+ "" = x.
Proof.
  induction x as [|a x IH]; [done |].
  change (String a (x +:+ "") = String a x). by f_equal.
Qed.

Lemma append_assoc (x y z : string) : (x +:+ y) +:+ z = x +:+ y +:+ z.
Proof.
  induction x as [|a x IH]; [done |].
  change (String a ((x +:+ y) +:+ z) = String a (x +:+ y +:+ z)). by f_equal.
Qed.

Lemma contains_end (pre x : string) : contains x (pre +:+ x).
Proof. exists pre, "". by rewrite append_empty_r. Qed.

Lemma contains_append_l (x pre hay : string) :
  contains x hay → contains x (pre +:+ hay).
Proof.
  intros (a & b & ->). exists (pre +:+ a), b. by rewrite append_assoc.
Qed.

Lemma strict_ne_zero_false (v : value) :
  strict_ne_zero v = false ↔ v = VNumber 0.
Proof.
  unfold strict_ne_zero, strict_eq_number. split.
  - destruct v as [|n| | | | |]; simpl; try discriminate.
    intros Hn. apply negb_false_iff, Z.eqb_eq in Hn. by subst.
  - by intros ->.
Qed.

Lemma strict_ne_zero_true (v : value) :
  strict_ne_zero v = true ↔ v ≠ VNumber 0.
Proof.
  rewrite <- strict_ne_zero_false. destruct (strict_ne_zero v); naive_solver.
Qed.

Lemma short_length (data : list byte) :
  (length data < 24)%nat → (length data <? 24)%nat = true.
Proof. intros Hl. by apply Nat.ltb_lt. Qed.

Lemma long_length (data : list byte) :
  (24 ≤ length data)%nat → (length data <? 24)%nat = false.
Proof. intros Hl. by apply Nat.ltb_ge. Qed.

Lemma handleSeedExchangeResponse_short (data : list byte) (c : config) :
  (length data < 24)%nat →
  handleSeedExchangeResponse data c =
    (Rejected (VError ("Invalid seed exchange response received from "
                       +:+ to_string (hostName (this c)))), c).
Proof.
  intros Hl. unfold handleSeedExchangeResponse, mbind, M_bind, get_this, throw.
  by rewrite (short_length _ Hl).
Qed.

Lemma handleSeedExchangeResponse_refused (data : list byte) (c : config) :
  (24 ≤ length data)%nat → seed_rc data ≠ VNumber 0 →
  handleSeedExchangeResponse data c =
    (Rejected (VError ("Error received during signon seed exchange with "
                       +:+ to_string (hostName (this c)) +:+ " : "
                       +:+ to_string (seed_rc data))),
     logged (EvParse HandleSeedExchangeResponse data) c).
Proof.
  intros Hl Hrc. apply strict_ne_zero_true in Hrc.
  unfold handleSeedExchangeResponse, mbind, M_bind, get_this, throw, emit.
  by rewrite (long_length _ Hl), Hrc.
Qed.

Lemma handleSeedExchangeResponse_ok (data : list byte) (c : config) :
  (24 ≤ length data)%nat → seed_rc data = VNumber 0 →
  handleSeedExchangeResponse data c =
    (Resolved (VBuffer (seed_serverSeed data)),
     {| this := with_system (negotiated data (system (this c))) (this c);
        history := history c ++ [(EvParse HandleSeedExchangeResponse data, this c)] |}).
Proof.
  intros Hl Hrc. apply strict_ne_zero_false in Hrc.
  unfold handleSeedExchangeResponse, mbind, M_bind, get_this, throw, emit.
  by rewrite (long_length _ Hl), Hrc.
Qed.

Lemma handleInfoResponse_short (data : list byte) (c : config) :
  (length data < 24)%nat →
  handleInfoResponse data c =
    (Rejected (VError ("Invalid info response received from "
                       +:+ to_string (hostName (this c)))), c).
Proof.
  intros Hl. unfold handleInfoResponse, mbind, M_bind, get_this, throw.
  by rewrite (short_length _ Hl).
Qed.

Lemma handleInfoResponse_refused (data : list byte) (c : config) :
  (24 ≤ length data)%nat → info_rc data ≠ VNumber 0 →
  handleInfoResponse data c =
    (Rejected (VError ("Error received during signon info with "
                       +:+ to_string (hostName (this c)) +:+ " : "
                       +:+ SignonErrors.get (info_rc data))),
     logged (EvParse HandleInfoResponse data) c).
Proof.
  intros Hl Hrc. apply strict_ne_zero_true in Hrc.
  unfold handleInfoResponse, mbind, M_bind, get_this, throw, emit.
  by rewrite (long_length _ Hl), Hrc.
Qed.

Lemma handleInfoResponse_ok (data : list byte) (c : config) :
  (24 ≤ length data)%nat → info_rc data = VNumber 0 →
  handleInfoResponse data c =
    (Resolved (session_attributes data), logged (EvParse HandleInfoResponse data) c).
Proof.
  intros Hl Hrc. apply strict_ne_zero_false in Hrc.
  unfold handleInfoResponse, mbind, M_bind, get_this, throw, emit.
  by rewrite (long_length _ Hl), Hrc.
Qed.

End Facts.

(** ** The shape of a run *)

Section Runs.
Context `{Collaborators}.
Variable w : World.

Lemma try_catch_rethrow {A : Type} (m : M A) (c : config) :
  try_catch m (λ err, throw err) c = m c.
Proof. unfold try_catch, throw. by destruct (m c) as [[?|?|] ?]. Qed.

Lemma run_connect_rejected (s : Signon) (e : value) :
  connect w = Rejected e →
  run_signon w s = (Rejected e, connecting s).
Proof.
  intros Hc. unfold run_signon, signon. rewrite try_catch_rethrow. unfold signon_body.
  unfold mbind, M_bind, emit, await. simpl. by rewrite Hc.
Qed.

Lemma run_connect_pending (s : Signon) :
  connect w = Pending →
  run_signon w s = (Pending, connecting s).
Proof.
  intros Hc. unfold run_signon, signon. rewrite try_catch_rethrow. unfold signon_body.
  unfold mbind, M_bind, emit, await. simpl. by rewrite Hc.
Qed.

Lemma run_seed_request_throws (s : Signon) (cn e : value) :
  connect w = Resolved cn → sendPacket w (seed_request w) = Some e →
  run_signon w s = (Rejected e, awaiting_seed_reply w cn s).
Proof.
  intros Hc Hs. unfold run_signon, signon. rewrite try_catch_rethrow. unfold signon_body.
  unfold mbind, M_bind, emit, await. simpl. rewrite Hc.
  unfold exchangeSeeds, do_sendPacket, mbind, M_bind, emit. simpl.
  fold (seed_request w). by rewrite Hs.
Qed.

Lemma run_seed_reply_missing (s : Signon) (cn : value) :
  connect w = Resolved cn → sendPacket w (seed_request w) = None →
  reply w (seed_request w) = None →
  run_signon w s = (Pending, awaiting_seed_reply w cn s).
Proof.
  intros Hc Hs Hr. unfold run_signon, signon. rewrite try_catch_rethrow. unfold signon_body.
  unfold mbind, M_bind, emit, await. simpl. rewrite Hc.
  unfold exchangeSeeds, do_sendPacket, next_data, mbind, M_bind, emit, await. simpl.
  fold (seed_request w). by rewrite Hs, Hr.
Qed.

Lemma run_seed_reply (s : Signon) (cn : value) (data : list byte) :
  connect w = Resolved cn → sendPacket w (seed_request w) = None →
  reply w (seed_request w) = Some data →
  run_signon w s =
    (handleSeedExchangeResponse data ≫= info w) (awaiting_seed_reply w cn s).
Proof.
  intros Hc Hs Hr. unfold run_signon, signon. rewrite try_catch_rethrow. unfold signon_body.
  unfold mbind at 1 2 3. unfold M_bind at 1 2 3. unfold emit, await. simpl. rewrite Hc.
  unfold exchangeSeeds, do_sendPacket, next_data. 
  unfold mbind, M_bind, emit, await. simpl.
  fold (seed_request w). by rewrite Hs, Hr.
Qed.

Lemma info_encrypt_throws (serverSeed e : value) (c : config) :
  encrypt_result serverSeed (this c) = inr e →
  info w serverSeed c = (Rejected e, logged (encrypt_call serverSeed (this c)) c).
Proof.
  intros He. unfold info, mbind, M_bind, get_this, emit. simpl.
  fold (encrypt_result serverSeed (this c)). by rewrite He.
Qed.

Lemma info_request_throws (serverSeed blob e : value) (c : config) :
  encrypt_result serverSeed (this c) = inl blob →
  sendPacket w (info_request blob (this c)) = Some e →
  info w serverSeed c = (Rejected e, awaiting_info_reply serverSeed blob c).
Proof.
  intros He Hs. unfold info, do_sendPacket, mbind, M_bind, get_this, emit. simpl.
  fold (encrypt_result serverSeed (this c)). rewrite He. simpl.
  fold (info_request blob (this c)). rewrite Hs. simpl.
  unfold awaiting_info_reply, logged. simpl. by rewrite <- !(assoc_L (++)).
Qed.

Lemma info_reply_missing (serverSeed blob : value) (c : config) :
  encrypt_result serverSeed (this c) = inl blob →
  sendPacket w (info_request blob (this c)) = None →
  reply w (info_request blob (this c)) = None →
  info w serverSeed c = (Pending, awaiting_info_reply serverSeed blob c).
Proof.
  intros He Hs Hr.
  unfold info, do_sendPacket, next_data, mbind, M_bind, get_this, emit, await. simpl.
  fold (encrypt_result serverSeed (this c)). rewrite He. simpl.
  fold (info_request blob (this c)). rewrite Hs, Hr. simpl.
  unfold awaiting_info_reply, logged. simpl. by rewrite <- !(assoc_L (++)).
Qed.

Lemma info_reply (serverSeed blob : value) (data : list byte) (c : config) :
  encrypt_result serverSeed (this c) = inl blob →
  sendPacket w (info_request blob (this c)) = None →
  reply w (info_request blob (this c)) = Some data →
  info w serverSeed c =
    handleInfoResponse data (awaiting_info_reply serverSeed blob c).
Proof.
  intros He Hs Hr.
  unfold info, do_sendPacket, next_data.
  unfold mbind, M_bind, get_this, emit, await. simpl.
  fold (encrypt_result serverSeed (this c)). rewrite He. simpl.
  fold (info_request blob (this c)). rewrite Hs, Hr. simpl.
  unfold awaiting_info_reply, logged. simpl. by rewrite <- !(assoc_L (++)).
Qed.

End Runs.

Section RunShape.
Context `{Collaborators}.

Lemma get_prop_set_prop_ne (k k' : string) (v : value) (o : JsObject) :
  k ≠ k' → get_prop (set_prop k v o) k' = get_prop o k'.
Proof. intros Hk. unfold get_prop, set_prop. by rewrite lookup_insert_ne. Qed.

Lemma get_prop_set_prop_eq (k : string) (v : value) (o : JsObject) :
  get_prop (set_prop k v o) k = v.
Proof. unfold get_prop, set_prop. by rewrite lookup_insert_eq. Qed.

Lemma hostName_negotiated_config (w : World) (cn : value) (s : Signon) (data : list byte) :
  hostName (this (negotiated_config w cn s data)) = hostName s.
Proof.
  unfold hostName, negotiated_config, negotiated. simpl.
  by rewrite !get_prop_set_prop_ne.
Qed.

Lemma seed_phase_ok (w : World) (s : Signon) (cn : value) (data : list byte) :
  connect w = Resolved cn → sendPacket w (seed_request w) = None →
  reply w (seed_request w) = Some data →
  (24 ≤ length data)%nat → seed_rc data = VNumber 0 →
  run_signon w s = info w (VBuffer (seed_serverSeed data)) (negotiated_config w cn s data).
Proof.
  intros Hc Hs Hr Hl Hrc. rewrite (run_seed_reply w s cn data Hc Hs Hr).
  unfold mbind, M_bind. by rewrite handleSeedExchangeResponse_ok.
Qed.

Theorem run_signon_shape (w : World) (s : Signon) : run_shape w s (run_signon w s).
Proof.
  destruct (connect w) as [cn|e|] eqn:Hc.
  2:{ rewrite (run_connect_rejected w s e Hc). by eapply shape_connect_rejected. }
  2:{ rewrite (run_connect_pending w s Hc). by eapply shape_connect_pending. }
  destruct (sendPacket w (seed_request w)) as [e|] eqn:Hs.
  { rewrite (run_seed_request_throws w s cn e Hc Hs). by eapply shape_seed_request_throws. }
  destruct (reply w (seed_request w)) as [data|] eqn:Hr.
  2:{ rewrite (run_seed_reply_missing w s cn Hc Hs Hr). by eapply shape_seed_reply_missing. }
  destruct (Nat.lt_ge_cases (length data) 24) as [Hl|Hl].
  { rewrite (run_seed_reply w s cn data Hc Hs Hr). unfold mbind, M_bind.
    rewrite handleSeedExchangeResponse_short by done.
    change (hostName (this (awaiting_seed_reply w cn s))) with (hostName s).
    by eapply shape_seed_reply_short. }
  destruct (strict_ne_zero (seed_rc data)) eqn:Hrc.
  { apply strict_ne_zero_true in Hrc.
    rewrite (run_seed_reply w s cn data Hc Hs Hr). unfold mbind, M_bind.
    rewrite handleSeedExchangeResponse_refused by done.
    change (hostName (this (awaiting_seed_reply w cn s))) with (hostName s).
    by eapply shape_seed_reply_refused. }
  apply strict_ne_zero_false in Hrc.
  rewrite (seed_phase_ok w s cn data Hc Hs Hr Hl Hrc).
  set (nc := negotiated_config w cn s data).
  destruct (encrypt_result (VBuffer (seed_serverSeed data)) (this nc)) as [blob|e] eqn:He.
  2:{ rewrite (info_encrypt_throws w _ e nc He). by eapply shape_encrypt_throws. }
  destruct (sendPacket w (info_request blob (this nc))) as [e|] eqn:Hs2.
  { rewrite (info_request_throws w _ blob e nc He Hs2). by eapply shape_info_request_throws. }
  destruct (reply w (info_request blob (this nc))) as [data2|] eqn:Hr2.
  2:{ rewrite (info_reply_missing w _ blob nc He Hs2 Hr2). by eapply shape_info_reply_missing. }
  rewrite (info_reply w _ blob data2 nc He Hs2 Hr2).
  destruct (Nat.lt_ge_cases (length data2) 24) as [Hl2|Hl2].
  { rewrite handleInfoResponse_short by done.
    change (this (awaiting_info_reply (VBuffer (seed_serverSeed data)) blob nc)) with (this nc).
    unfold nc at 1. rewrite hostName_negotiated_config. by eapply shape_info_reply_short. }
  destruct (strict_ne_zero (info_rc data2)) eqn:Hrc2.
  { apply strict_ne_zero_true in Hrc2.
    rewrite handleInfoResponse_refused by done.
    change (this (awaiting_info_reply (VBuffer (seed_serverSeed data)) blob nc)) with (this nc).
    unfold nc at 1. rewrite hostName_negotiated_config. by eapply shape_info_reply_refused. }
  apply strict_ne_zero_false in Hrc2.
  rewrite handleInfoResponse_ok by done. by eapply shape_info_reply_accepted.
Qed.

End RunShape.

(** ** Calls of the configurations a run ends in *)

Section Calls.
Context `{Collaborators}.

Lemma calls_logged (e : event) (c : config) : calls (logged e c) = (calls c ++ [e])%list.
Proof. unfold calls, logged. simpl. by rewrite fmap_app. Qed.

Lemma calls_connecting (s : Signon) : calls (connecting s) = [EvConnect].
Proof. done. Qed.

Lemma calls_awaiting_seed_reply (w : World) (cn : value) (s : Signon) :
  calls (awaiting_seed_reply w cn s) =
    [EvConnect; EvOnce HandleSeedExchangeResponse; EvSendPacket (seed_request w)].
Proof. done. Qed.

Lemma calls_negotiated_config (w : World) (cn : value) (s : Signon) (data : list byte) :
  calls (negotiated_config w cn s data) =
    [EvConnect; EvOnce HandleSeedExchangeResponse; EvSendPacket (seed_request w);
     EvParse HandleSeedExchangeResponse data].
Proof. done. Qed.

Lemma calls_awaiting_info_reply (serverSeed blob : value) (c : config) :
  calls (awaiting_info_reply serverSeed blob c) =
    (calls c ++ [encrypt_call serverSeed (this c); EvOnce HandleInfoResponse;
                 EvSendPacket (info_request blob (this c))])%list.
Proof.
  unfold awaiting_info_reply. rewrite !calls_logged. simpl.
  by rewrite <- !(assoc_L (++)).
Qed.

Lemma system_negotiated_config (w : World) (cn : value) (s : Signon) (data : list byte) :
  system (this (negotiated_config w cn s data)) = negotiated data (system s).
Proof. done. Qed.

Lemma seed_negotiated_config (w : World) (cn : value) (s : Signon) (data : list byte) :
  seed (this (negotiated_config w cn s data)) = clientSeed w.
Proof. done. Qed.

Lemma encrypt_call_negotiated (w : World) (cn : value) (s : Signon) (data : list byte) :
  encrypt_call (VBuffer (seed_serverSeed data)) (this (negotiated_config w cn s data)) =
    EvEncrypt (seed_passwordLevel data) (get_prop (system s) "userId")
              (get_prop (system s) "password") (clientSeed w) (VBuffer (seed_serverSeed data)).
Proof.
  unfold encrypt_call. rewrite system_negotiated_config, seed_negotiated_config.
  unfold negotiated.
  rewrite (get_prop_set_prop_ne _ "passwordLevel") by done.
  rewrite get_prop_set_prop_eq.
  by rewrite !get_prop_set_prop_ne.
Qed.

End Calls.

(** The calls of the configuration a run ends in, as a list. *)
Ltac list_calls :=
  rewrite ?calls_logged, ?calls_awaiting_info_reply, ?calls_negotiated_config,
    ?calls_awaiting_seed_reply, ?calls_connecting.

Ltac list_calls_in Hin :=
  rewrite ?calls_logged, ?calls_awaiting_info_reply, ?calls_negotiated_config,
    ?calls_awaiting_seed_reply, ?calls_connecting in Hin.

(** Case analysis on the run of [signon()] on [s] in the world [w]. *)
Ltac run_cases w s :=
  let r := fresh "r" in
  let Hr := fresh "Hr" in
  let Hshape := fresh "Hshape" in
  pose proof (run_signon_shape w s) as Hshape;
  remember (run_signon w s) as r eqn:Hr;
  destruct Hshape; cbn [fst snd] in *.

(** Two hypotheses about the same choice of the world say the same. *)
Ltac same_world :=
  repeat match goal with
         | H1 : ?x = _, H2 : ?x = _ |- _ => rewrite H1 in H2; simplify_eq
         end.

(** Case analysis on a membership of an event in the calls of a run. *)
Ltac mem_cases Hin :=
  list_calls_in Hin; set_unfold in Hin;
  unfold encrypt_call, seed_request, info_request in Hin;
  repeat match type of Hin with
         | _ ∨ _ => destruct Hin as [Hin|Hin]
         end;
  simpl in Hin; try discriminate Hin; try (by destruct Hin); simplify_eq.

(** ** The info reply *)

Section InfoReply.
Context `{Collaborators}.

Lemma session_attributes_dom (data : list byte) :
  dom (session_attributes data) =
    ({["serverCCSID"; "currentSignonDate"; "lastSignonDate";
       "passwordExpirationDate"; "expirationWarning"; "userId"]} : gset string).
Proof.
  unfold session_attributes, set_prop.
  rewrite !dom_insert_L, dom_empty_L. set_solver.
Qed.

(** C1: an info reply of at least 24 bytes whose status is 0 makes the info
    handler resolve, and with it [signon()], with an object that has exactly
    the six properties serverCCSID, currentSignonDate, lastSignonDate,
    passwordExpirationDate, expirationWarning and userId, each read from the
    reply; userId in particular is the reply's, whatever user id the system
    holds and the request carried. *)
Theorem info_reply_accepted_session_attributes (data : list byte) :
  (24 ≤ length data)%nat →
  info_rc data = VNumber 0 →
  (∀ c : config,
     handleInfoResponse data c =
       (Resolved (session_attributes data), logged (EvParse HandleInfoResponse data) c))
  ∧ (∀ (w : World) (s : Signon),
       EvParse HandleInfoResponse data ∈ calls (snd (run_signon w s)) →
       fst (run_signon w s) = Resolved (session_attributes data))
  ∧ dom (session_attributes data) =
      ({["serverCCSID"; "currentSignonDate"; "lastSignonDate";
         "passwordExpirationDate"; "expirationWarning"; "userId"]} : gset string)
  ∧ size (session_attributes data) = 6%nat
  ∧ session_attributes data !! "serverCCSID" = Some (info_serverCCSID data)
  ∧ session_attributes data !! "currentSignonDate" = Some (info_currentSignonDate data)
  ∧ session_attributes data !! "lastSignonDate" = Some (info_lastSignonDate data)
  ∧ session_attributes data !! "passwordExpirationDate"
      = Some (info_passwordExpirationDate data)
  ∧ session_attributes data !! "expirationWarning" = Some (info_expirationWarning data)
  ∧ session_attributes data !! "userId" = Some (info_userId data).
Proof.
  intros Hl Hrc. split; [|split; [|split; [|split]]].
  - intros c. by apply handleInfoResponse_ok.
  - intros w s Hin. run_cases w s; mem_cases Hin; done.
  - apply session_attributes_dom.
  - rewrite <- size_dom, session_attributes_dom. by vm_compute.
  - unfold session_attributes, set_prop. by simplify_map_eq.
Qed.

End InfoReply.

(** ** The seed-exchange reply *)

Section SeedReply.
Context `{Collaborators}.

Lemma negotiated_lookup_other (data : list byte) (o : JsObject) (k : string) :
  k ∉ ["serverLevel"; "serverVersion"; "passwordLevel"; "passwordAttributesSet"] →
  negotiated data o !! k = o !! k.
Proof.
  intros Hk. unfold negotiated, set_prop.
  rewrite !lookup_insert_ne; [done | set_solver..].
Qed.

(** C2, as the code has it: a seed-exchange reply of at least 24 bytes whose
    status is 0 makes the handler resolve with the server seed of the reply;
    on the system it sets serverLevel, serverVersion and passwordLevel to the
    values of the reply and passwordAttributesSet to true, and it changes
    nothing else: no other property of the system (so no serverSeed property
    and none of the session attributes), no other field of the service, and
    its only call is the parsing of the reply. *)
Theorem seed_reply_accepted_updates_system (data : list byte) (c : config) :
  (24 ≤ length data)%nat →
  seed_rc data = VNumber 0 →
  ∃ c' : config,
    handleSeedExchangeResponse data c = (Resolved (VBuffer (seed_serverSeed data)), c')
    ∧ system (this c') !! "serverLevel" = Some (seed_serverLevel data)
    ∧ system (this c') !! "serverVersion" = Some (seed_serverVersion data)
    ∧ system (this c') !! "passwordLevel" = Some (seed_passwordLevel data)
    ∧ passwordAttributesSet (this c')
    ∧ (∀ k : string,
         k ∉ ["serverLevel"; "serverVersion"; "passwordLevel"; "passwordAttributesSet"] →
         system (this c') !! k = system (this c) !! k)
    ∧ connection (this c') = connection (this c)
    ∧ seed (this c') = seed (this c)
    ∧ socket (this c') = socket (this c)
    ∧ calls c' = (calls c ++ [EvParse HandleSeedExchangeResponse data])%list.
Proof.
  intros Hl Hrc. eexists. split; [by apply handleSeedExchangeResponse_ok|].
  simpl. unfold passwordAttributesSet. simpl.
  repeat split; try (unfold negotiated, set_prop; by simplify_map_eq).
  - intros k Hk. by apply negotiated_lookup_other.
  - unfold calls. simpl. by rewrite fmap_app.
Qed.

(** C3: a reply shorter than 24 bytes is rejected by either handler with an
    error whose message ends with the host name, whatever the bytes are and
    whatever the packet accessors would read from them: the configuration is
    returned as it was, so no parsing is recorded.  In a run of [signon()]
    in which such a reply answers a request that was sent, the run is
    rejected with that error and the reply is never parsed. *)
Theorem short_reply_framing_error (data : list byte) :
  (length data < 24)%nat →
  (∀ c : config,
     handleSeedExchangeResponse data c =
       (Rejected (VError ("Invalid seed exchange response received from "
                          +:+ to_string (hostName (this c)))), c))
  ∧ (∀ c : config,
       handleInfoResponse data c =
         (Rejected (VError ("Invalid info response received from "
                            +:+ to_string (hostName (this c)))), c))
  ∧ (∀ (w : World) (s : Signon) (req : request),
       EvSendPacket req ∈ calls (snd (run_signon w s)) →
       sendPacket w req = None →
       reply w req = Some data →
       (∃ phase : string,
          fst (run_signon w s) =
            Rejected (VError ("Invalid " +:+ phase +:+ " response received from "
                              +:+ to_string (hostName s))))
       ∧ (∀ h : handler, EvParse h data ∉ calls (snd (run_signon w s)))).
Proof.
  intros Hl. split; [|split].
  - intros c. by apply handleSeedExchangeResponse_short.
  - intros c. by apply handleInfoResponse_short.
  - intros w s req Hin Hsend Hreply.
    run_cases w s; mem_cases Hin;
      unfold seed_request, info_request, negotiated_config in *; simpl in *;
      simplify_eq; try lia.
    + split; [by exists "seed exchange"|].
      intros h Hp. mem_cases Hp.
    + split; [by exists "info"|].
      intros h Hp. mem_cases Hp. lia.
Qed.

(** C10: a seed-exchange reply that fails, because it is shorter than 24
    bytes or because its status is not 0, is rejected and leaves the service
    object, and with it the system and its serverLevel, serverVersion,
    passwordLevel and passwordAttributesSet, exactly as it was. *)
Theorem failed_seed_reply_keeps_state (data : list byte) (c : config) :
  (length data < 24)%nat ∨ seed_rc data ≠ VNumber 0 →
  (∃ e : value, fst (handleSeedExchangeResponse data c) = Rejected e)
  ∧ this (snd (handleSeedExchangeResponse data c)) = this c.
Proof.
  intros Hfail.
  destruct (Nat.lt_ge_cases (length data) 24) as [Hl|Hl].
  - rewrite handleSeedExchangeResponse_short by done. eauto.
  - destruct Hfail as [Hs|Hrc]; [lia|].
    rewrite handleSeedExchangeResponse_refused by done. eauto.
Qed.

(** C6: a seed-exchange reply of at least 24 bytes whose status is not 0 is
    rejected with the message
    ["Error received during signon seed exchange with <host> : <code>"]:
    it contains the host name and ends with the status as read from the
    reply, in decimal when it is a number.  A run of [signon()] that parsed
    such a reply is rejected with that error. *)
Theorem seed_reply_refused_message (data : list byte) (c : config) :
  (24 ≤ length data)%nat →
  seed_rc data ≠ VNumber 0 →
  let message := "Error received during signon seed exchange with "
                 +:+ to_string (hostName (this c)) +:+ " : "
                 +:+ to_string (seed_rc data) in
  fst (handleSeedExchangeResponse data c) = Rejected (VError message)
  ∧ contains (to_string (hostName (this c))) message
  ∧ contains (to_string (seed_rc data)) message
  ∧ (∀ n : Z, seed_rc data = VNumber n → contains (pretty n) message)
  ∧ (∀ (w : World) (s : Signon),
       EvParse HandleSeedExchangeResponse data ∈ calls (snd (run_signon w s)) →
       fst (run_signon w s) =
         Rejected (VError ("Error received during signon seed exchange with "
                           +:+ to_string (hostName s) +:+ " : "
                           +:+ to_string (seed_rc data)))).
Proof.
  intros Hl Hrc message. split; [|split; [|split; [|split]]].
  - by rewrite handleSeedExchangeResponse_refused.
  - apply contains_middle.
  - do 2 apply contains_append_l. apply contains_end.
  - intros n Hn. do 2 apply contains_append_l. rewrite Hn. apply contains_end.
  - intros w s Hin. run_cases w s; mem_cases Hin; done.
Qed.

End SeedReply.

(** ** The error taxonomy *)

Section Taxonomy.
Context `{Collaborators}.

Lemma get_unknown (code : value) :
  (∀ n : Z, n ∈ SignonErrors.known_ids → code ≠ VNumber n) →
  SignonErrors.get code = "Unknown error".
Proof.
  intros Hcode. unfold SignonErrors.get.
  destruct code as [|m| | | | |]; try done. unfold strict_eq_number.
  repeat match goal with
         | |- context [Z.eqb m ?k] =>
             destruct (Z.eqb_spec m k) as [->|_];
             [exfalso; eapply Hcode; [|done]; unfold SignonErrors.known_ids; set_solver|]
         end.
  done.
Qed.

Lemma get_total (code : value) :
  SignonErrors.get code ∈
    [msg SignonErrors.PASSWORD_LENGTH_NOT_VALID; msg SignonErrors.USERID_UNKNOWN;
     msg SignonErrors.USERID_DISABLED; msg SignonErrors.PASSWORD_INCORRECT;
     msg SignonErrors.PASSWORD_INCORRECT_DISABLE; "Unknown error"].
Proof.
  unfold SignonErrors.get. repeat case_match; set_solver.
Qed.

(** C5: an info reply of at least 24 bytes whose status is not 0 is rejected
    with a message that ends with the taxonomy's message for that status,
    and so is a run of [signon()] that parsed it.  The taxonomy maps each of
    its five codes to its own message (0x0003000B to one that contains
    "Incorrect password"), every value that is none of the five codes to
    "Unknown error", and always returns one of these six messages. *)
Theorem info_reply_refused_taxonomy (data : list byte) (c : config) :
  (24 ≤ length data)%nat →
  info_rc data ≠ VNumber 0 →
  let message := "Error received during signon info with "
                 +:+ to_string (hostName (this c)) +:+ " : "
                 +:+ SignonErrors.get (info_rc data) in
  fst (handleInfoResponse data c) = Rejected (VError message)
  ∧ contains (SignonErrors.get (info_rc data)) message
  ∧ (∀ (w : World) (s : Signon),
       EvParse HandleInfoResponse data ∈ calls (snd (run_signon w s)) →
       fst (run_signon w s) =
         Rejected (VError ("Error received during signon info with "
                           +:+ to_string (hostName s) +:+ " : "
                           +:+ SignonErrors.get (info_rc data))))
  ∧ SignonErrors.get (VNumber 0x00010008) = "Password length not valid"
  ∧ SignonErrors.get (VNumber 0x00020001) = "Unknown user ID"
  ∧ SignonErrors.get (VNumber 0x00020002) = "User ID is disabled"
  ∧ SignonErrors.get (VNumber 0x0003000B) = "Incorrect password"
  ∧ SignonErrors.get (VNumber 0x0003000C) =
      "Incorrect password, user ID will be disabled on the next incorrect password"
  ∧ contains "Incorrect password" (SignonErrors.get (VNumber 0x0003000B))
  ∧ (∀ code : value,
       (∀ n : Z, n ∈ SignonErrors.known_ids → code ≠ VNumber n) →
       contains "Unknown error" (SignonErrors.get code))
  ∧ (∀ code : value,
       SignonErrors.get code ∈
         [msg SignonErrors.PASSWORD_LENGTH_NOT_VALID; msg SignonErrors.USERID_UNKNOWN;
          msg SignonErrors.USERID_DISABLED; msg SignonErrors.PASSWORD_INCORRECT;
          msg SignonErrors.PASSWORD_INCORRECT_DISABLE; "Unknown error"]).
Proof.
  intros Hl Hrc message. repeat split; try done.
  - by rewrite handleInfoResponse_refused.
  - do 2 apply contains_append_l. apply contains_end.
  - intros w s Hin. run_cases w s; mem_cases Hin; done.
  - by exists "", "".
  - intros code Hcode. rewrite (get_unknown code Hcode). by exists "", "".
  - apply get_total.
Qed.

End Taxonomy.

(** ** The order of the two phases *)

Section Phases.
Context `{Collaborators}.

Lemma history_negotiated_config (w : World) (cn : value) (s : Signon) (data : list byte) :
  history (negotiated_config w cn s data) =
    [(EvConnect, s);
     (EvOnce HandleSeedExchangeResponse, seeded w cn s);
     (EvSendPacket (seed_request w), seeded w cn s);
     (EvParse HandleSeedExchangeResponse data, seeded w cn s)].
Proof. done. Qed.

Lemma negotiated_passwordAttributesSet (w : World) (cn : value) (s : Signon)
    (data : list byte) :
  passwordAttributesSet (this (negotiated_config w cn s data)).
Proof.
  unfold passwordAttributesSet. rewrite system_negotiated_config.
  unfold negotiated, set_prop. by rewrite lookup_insert_eq.
Qed.

(** C4: when the seed-exchange reply has a status other than 0, the run of
    [signon()] is rejected, and the calls it made are the connection, the
    registration of the listener, the sending of the seed-exchange request
    and the parsing of the reply: the password encryptor was not called and
    no info request was sent. *)
Theorem seed_reply_refused_no_credentials
    (w : World) (s : Signon) (cn : value) (data : list byte) :
  connect w = Resolved cn →
  sendPacket w (seed_request w) = None →
  reply w (seed_request w) = Some data →
  (24 ≤ length data)%nat →
  seed_rc data ≠ VNumber 0 →
  (∃ e : value, fst (run_signon w s) = Rejected e)
  ∧ called is_encrypt (snd (run_signon w s)) = false
  ∧ called is_info_request (snd (run_signon w s)) = false
  ∧ calls (snd (run_signon w s)) =
      [EvConnect; EvOnce HandleSeedExchangeResponse; EvSendPacket (seed_request w);
       EvParse HandleSeedExchangeResponse data].
Proof.
  intros Hc Hs Hr Hl Hrc. rewrite (run_seed_reply w s cn data Hc Hs Hr).
  unfold mbind, M_bind. rewrite handleSeedExchangeResponse_refused by done.
  simpl. eauto.
Qed.

(** C7: in every run of [signon()], each call to the password encryptor is
    made on a service object whose system has passwordAttributesSet equal to
    true; that object is the one the seed-exchange handler left after a
    reply of at least 24 bytes with status 0. *)
Theorem encryption_after_password_attributes (w : World) (s : Signon) :
  Forall (λ step : event * Signon,
            is_encrypt step.1 = true →
            passwordAttributesSet step.2
            ∧ ∃ (cn : value) (data : list byte),
                step.2 = this (negotiated_config w cn s data)
                ∧ EvParse HandleSeedExchangeResponse data ∈ calls (snd (run_signon w s))
                ∧ (24 ≤ length data)%nat
                ∧ seed_rc data = VNumber 0)
         (history (snd (run_signon w s))).
Proof.
  run_cases w s;
    unfold awaiting_info_reply, logged, awaiting_seed_reply, connecting;
    rewrite ?history_negotiated_config; simpl;
    repeat (apply Forall_cons; split; [try (simpl; discriminate)|]);
    try (by apply Forall_nil).
  all: simpl; intros _; split; [apply (negotiated_passwordAttributesSet w cn s data)|].
  all: exists cn, data; split; [done|]; split; [|done].
  all: unfold calls; simpl; set_solver.
Qed.

End Phases.

(** ** The credentials and the end of a run *)

Section Credentials.
Context `{Collaborators}.

Lemma handleInfoResponse_calls (data : list byte) (c : config) :
  ∃ rest : list event,
    calls (snd (handleInfoResponse data c)) = (calls c ++ rest)%list.
Proof.
  destruct (Nat.lt_ge_cases (length data) 24) as [Hl|Hl].
  { rewrite handleInfoResponse_short by done. exists []. by rewrite app_nil_r. }
  destruct (strict_ne_zero (info_rc data)) eqn:Hrc.
  - apply strict_ne_zero_true in Hrc.
    rewrite handleInfoResponse_refused by done. eexists. apply calls_logged.
  - apply strict_ne_zero_false in Hrc.
    rewrite handleInfoResponse_ok by done. eexists. apply calls_logged.
Qed.

Lemma info_calls_encryptor_first (w : World) (serverSeed : value) (c : config) :
  ∃ rest : list event,
    calls (snd (info w serverSeed c)) =
      (calls c ++ encrypt_call serverSeed (this c) :: rest)%list.
Proof.
  destruct (encrypt_result serverSeed (this c)) as [blob|e] eqn:He.
  2:{ rewrite (info_encrypt_throws w _ e c He). exists []. apply calls_logged. }
  destruct (sendPacket w (info_request blob (this c))) as [e|] eqn:Hs.
  { rewrite (info_request_throws w _ blob e c He Hs).
    eexists. apply calls_awaiting_info_reply. }
  destruct (reply w (info_request blob (this c))) as [data|] eqn:Hr.
  2:{ rewrite (info_reply_missing w _ blob c He Hs Hr).
      eexists. apply calls_awaiting_info_reply. }
  rewrite (info_reply w _ blob data c He Hs Hr).
  destruct (handleInfoResponse_calls data (awaiting_info_reply serverSeed blob c))
    as [rest ->].
  rewrite calls_awaiting_info_reply, <- (assoc_L (++)). by eexists.
Qed.

(** C8: when phase 1 has succeeded, so that phase 2 runs, the run calls the
    password encryptor exactly once, with the password level read from the
    seed-exchange reply, the user id and the password of the system, the
    client seed of the seed-exchange request that was sent, and the server
    seed read from the seed-exchange reply.  [info] itself, wherever it is
    run, first calls the encryptor with the password level of the system,
    the seed kept on the service and the server seed it is given. *)
Theorem encryptor_gets_negotiated_inputs
    (w : World) (s : Signon) (cn : value) (data : list byte) :
  connect w = Resolved cn →
  sendPacket w (seed_request w) = None →
  reply w (seed_request w) = Some data →
  (24 ≤ length data)%nat →
  seed_rc data = VNumber 0 →
  List.filter is_encrypt (calls (snd (run_signon w s))) =
    [EvEncrypt (seed_passwordLevel data) (get_prop (system s) "userId")
               (get_prop (system s) "password") (clientSeed w) (VBuffer (seed_serverSeed data))]
  ∧ List.filter is_seed_request (calls (snd (run_signon w s))) =
      [EvSendPacket (SignonSeedExchangeRequest (clientSeed w))]
  ∧ (∀ (serverSeed : value) (c : config),
       ∃ rest : list event,
         calls (snd (info w serverSeed c)) =
           (calls c
            ++ EvEncrypt (get_prop (system (this c)) "passwordLevel")
                         (get_prop (system (this c)) "userId")
                         (get_prop (system (this c)) "password")
                         (seed (this c)) serverSeed
               :: rest)%list).
Proof.
  intros Hc Hs Hr Hl Hrc.
  cut (List.filter is_encrypt (calls (snd (run_signon w s))) =
         [EvEncrypt (seed_passwordLevel data) (get_prop (system s) "userId")
                    (get_prop (system s) "password") (clientSeed w)
                    (VBuffer (seed_serverSeed data))]
       ∧ List.filter is_seed_request (calls (snd (run_signon w s))) =
           [EvSendPacket (SignonSeedExchangeRequest (clientSeed w))]).
  { intros [Henc Hreq]. repeat split; [exact Henc | exact Hreq |].
    intros serverSeed c. apply info_calls_encryptor_first. }
  run_cases w s; same_world; list_calls;
    rewrite ?encrypt_call_negotiated; unfold seed_request, info_request;
    try lia; done.
Qed.

End Credentials.

(** ** The service on the sample runs *)

Section Samples.
Existing Instance sample_collaborators.

Lemma seed_reply_ok_accepted :
  (24 ≤ length seed_reply_ok)%nat ∧ seed_rc seed_reply_ok = VNumber 0.
Proof. split; [vm_compute; lia | reflexivity]. Qed.

Lemma info_reply_ok_accepted :
  (24 ≤ length info_reply_ok)%nat ∧ info_rc info_reply_ok = VNumber 0.
Proof. split; [vm_compute; lia | reflexivity]. Qed.

(** The end-to-end run: both replies have status 0, and the run resolves
    with CCSID 37 and the user id ALICE of the info reply. *)
Example signon_sample_run :
  ∃ r : JsObject,
    fst (run_signon (sample_world (Some seed_reply_ok) (Some info_reply_ok))
                    sample_service) = Resolved r
    ∧ r !! "serverCCSID" = Some (VNumber 37)
    ∧ r !! "userId" = Some (VString "ALICE").
Proof. eexists. split; [vm_compute; reflexivity|]. by vm_compute. Qed.

(** The end-to-end run with a seed-exchange reply of 10 bytes. *)
Example signon_sample_short_reply :
  run_signon (sample_world (Some short_reply) (Some info_reply_ok)) sample_service =
    (Rejected (VError "Invalid seed exchange response received from as400.example.com"),
     awaiting_seed_reply (sample_world (Some short_reply) (Some info_reply_ok))
                         (VHandle 2) sample_service).
Proof. by vm_compute. Qed.

(** C1, on the sample run: the request carried the user id alice, the
    result holds the reply's ALICE. *)
Lemma info_reply_accepted_session_attributes_witness :
  (24 ≤ length info_reply_ok)%nat
  ∧ info_rc info_reply_ok = VNumber 0
  ∧ fst (run_signon (sample_world (Some seed_reply_ok) (Some info_reply_ok))
                    sample_service) = Resolved (session_attributes info_reply_ok)
  ∧ session_attributes info_reply_ok !! "userId" = Some (info_userId info_reply_ok)
  ∧ info_userId info_reply_ok = VString "ALICE"
  ∧ get_prop (system sample_service) "userId" = VString "alice".
Proof.
  destruct info_reply_ok_accepted as [Hl Hrc].
  split; [exact Hl|]. split; [exact Hrc|].
  destruct (info_reply_accepted_session_attributes info_reply_ok Hl Hrc)
    as (_ & Hrun & _ & _ & _ & _ & _ & _ & _ & Huser).
  split; [|split; [exact Huser|split; reflexivity]].
  apply Hrun. vm_compute. repeat constructor.
Defined.

(** C2 as stated fails: after an accepted seed-exchange reply the system has
    no serverSeed property. *)
Lemma seed_reply_accepted_serverSeed_not_on_system :
  (24 ≤ length seed_reply_ok)%nat
  ∧ seed_rc seed_reply_ok = VNumber 0
  ∧ fst (handleSeedExchangeResponse seed_reply_ok sample_config)
    = Resolved (VBuffer [x09; x0a; x0b; x0c; x0d; x0e; x0f; x10])
  ∧ ¬ is_Some
        (system (this (snd (handleSeedExchangeResponse seed_reply_ok sample_config)))
           !! "serverSeed").
Proof.
  destruct seed_reply_ok_accepted as [Hl Hrc].
  split; [exact Hl|]. split; [exact Hrc|]. split; [by vm_compute|].
  intros [v Hv]. vm_compute in Hv. discriminate Hv.
Qed.

Lemma seed_reply_accepted_updates_system_witness :
  (24 ≤ length seed_reply_ok)%nat
  ∧ seed_rc seed_reply_ok = VNumber 0
  ∧ ∃ c' : config,
      handleSeedExchangeResponse seed_reply_ok sample_config
      = (Resolved (VBuffer (seed_serverSeed seed_reply_ok)), c')
      ∧ system (this c') !! "passwordLevel" = Some (seed_passwordLevel seed_reply_ok)
      ∧ passwordAttributesSet (this c')
      ∧ system (this c') !! "serverSeed" = system sample_service !! "serverSeed".
Proof.
  destruct seed_reply_ok_accepted as [Hl Hrc].
  split; [exact Hl|]. split; [exact Hrc|].
  destruct (seed_reply_accepted_updates_system seed_reply_ok sample_config Hl Hrc)
    as (c' & Hrun & _ & _ & Hlevel & Hset & Hother & _).
  exists c'. split; [exact Hrun|]. split; [exact Hlevel|]. split; [exact Hset|].
  apply Hother. rewrite !not_elem_of_cons.
  repeat split; try done. apply not_elem_of_nil.
Defined.

Lemma short_reply_framing_error_witness :
  (length short_reply < 24)%nat
  ∧ handleSeedExchangeResponse short_reply sample_config
    = (Rejected (VError ("Invalid seed exchange response received from "
                         +:+ to_string (hostName (this sample_config)))),
       sample_config)
  ∧ handleInfoResponse short_reply sample_config
    = (Rejected (VError ("Invalid info response received from "
                         +:+ to_string (hostName (this sample_config)))),
       sample_config).
Proof.
  assert (Hl : (length short_reply < 24)%nat) by (vm_compute; lia).
  split; [exact Hl|].
  destruct (short_reply_framing_error short_reply Hl) as (Hseed & Hinfo & _).
  split; [apply Hseed | apply Hinfo].
Defined.

Lemma seed_reply_refused_is_refused :
  (24 ≤ length seed_reply_refused)%nat ∧ seed_rc seed_reply_refused ≠ VNumber 0.
Proof. split; [vm_compute; lia | discriminate]. Qed.

Lemma seed_reply_refused_no_credentials_witness :
  let w := sample_world (Some seed_reply_refused) (Some info_reply_ok) in
  connect w = Resolved (VHandle 2)
  ∧ sendPacket w (seed_request w) = None
  ∧ reply w (seed_request w) = Some seed_reply_refused
  ∧ (24 ≤ length seed_reply_refused)%nat
  ∧ seed_rc seed_reply_refused ≠ VNumber 0
  ∧ (∃ e : value, fst (run_signon w sample_service) = Rejected e)
  ∧ called is_encrypt (snd (run_signon w sample_service)) = false
  ∧ called is_info_request (snd (run_signon w sample_service)) = false.
Proof.
  intros w. destruct seed_reply_refused_is_refused as [Hl Hrc].
  split; [reflexivity|]. split; [reflexivity|]. split; [reflexivity|].
  split; [exact Hl|]. split; [exact Hrc|].
  destruct (seed_reply_refused_no_credentials w sample_service (VHandle 2)
              seed_reply_refused eq_refl eq_refl eq_refl Hl Hrc)
    as (Hrej & Henc & Hinfo & _).
  split; [exact Hrej|]. split; [exact Henc | exact Hinfo].
Defined.

Lemma info_reply_refused_taxonomy_witness :
  (24 ≤ length info_reply_bad_password)%nat
  ∧ info_rc info_reply_bad_password ≠ VNumber 0
  ∧ fst (handleInfoResponse info_reply_bad_password sample_config)
    = Rejected (VError ("Error received during signon info with "
                        +:+ to_string (hostName (this sample_config)) +:+ " : "
                        +:+ SignonErrors.get (info_rc info_reply_bad_password)))
  ∧ SignonErrors.get (info_rc info_reply_bad_password) = "Incorrect password"
  ∧ SignonErrors.get (info_rc info_reply_other) = "Unknown error".
Proof.
  assert (Hl : (24 ≤ length info_reply_bad_password)%nat) by (vm_compute; lia).
  assert (Hrc : info_rc info_reply_bad_password ≠ VNumber 0) by discriminate.
  split; [exact Hl|]. split; [exact Hrc|].
  destruct (info_reply_refused_taxonomy info_reply_bad_password sample_config Hl Hrc)
    as (Hrej & _).
  split; [exact Hrej|]. split; reflexivity.
Defined.

Lemma seed_reply_refused_message_witness :
  (24 ≤ length seed_reply_refused)%nat
  ∧ seed_rc seed_reply_refused ≠ VNumber 0
  ∧ fst (handleSeedExchangeResponse seed_reply_refused sample_config)
    = Rejected (VError ("Error received during signon seed exchange with "
                        +:+ to_string (hostName (this sample_config)) +:+ " : "
                        +:+ to_string (seed_rc seed_reply_refused)))
  ∧ to_string (hostName (this sample_config)) = "as400.example.com"
  ∧ to_string (seed_rc seed_reply_refused) = "65537".
Proof.
  destruct seed_reply_refused_is_refused as [Hl Hrc].
  split; [exact Hl|]. split; [exact Hrc|].
  destruct (seed_reply_refused_message seed_reply_refused sample_config Hl Hrc)
    as (Hrej & _).
  split; [exact Hrej|]. split; [reflexivity | by vm_compute].
Defined.

Lemma encryptor_gets_negotiated_inputs_witness :
  let w := sample_world (Some seed_reply_ok) (Some info_reply_ok) in
  connect w = Resolved (VHandle 2)
  ∧ sendPacket w (seed_request w) = None
  ∧ reply w (seed_request w) = Some seed_reply_ok
  ∧ (24 ≤ length seed_reply_ok)%nat
  ∧ seed_rc seed_reply_ok = VNumber 0
  ∧ List.filter is_encrypt (calls (snd (run_signon w sample_service))) =
      [EvEncrypt (seed_passwordLevel seed_reply_ok)
                 (get_prop (system sample_service) "userId")
                 (get_prop (system sample_service) "password")
                 (clientSeed w) (VBuffer (seed_serverSeed seed_reply_ok))].
Proof.
  intros w. destruct seed_reply_ok_accepted as [Hl Hrc].
  split; [reflexivity|]. split; [reflexivity|]. split; [reflexivity|].
  split; [exact Hl|]. split; [exact Hrc|].
  destruct (encryptor_gets_negotiated_inputs w sample_service (VHandle 2)
              seed_reply_ok eq_refl eq_refl eq_refl Hl Hrc) as (Henc & _ & _).
  exact Henc.
Defined.

Lemma failed_seed_reply_keeps_state_witness :
  ((length seed_reply_refused < 24)%nat ∨ seed_rc seed_reply_refused ≠ VNumber 0)
  ∧ (length short_reply < 24)%nat
  ∧ this (snd (handleSeedExchangeResponse seed_reply_refused sample_config))
    = this sample_config
  ∧ this (snd (handleSeedExchangeResponse short_reply sample_config))
    = this sample_config.
Proof.
  assert (Hrc : (length seed_reply_refused < 24)%nat
                ∨ seed_rc seed_reply_refused ≠ VNumber 0) by (right; discriminate).
  assert (Hl : (length short_reply < 24)%nat) by (vm_compute; lia).
  split; [exact Hrc|]. split; [exact Hl|]. split.
  - apply (failed_seed_reply_keeps_state seed_reply_refused sample_config Hrc).
  - apply (failed_seed_reply_keeps_state short_reply sample_config (or_introl Hl)).
Defined.

End Samples.

(** ** Further properties of the handlers *)

Section Handlers.
Context `{Collaborators}.

Lemma handleInfoResponse_this (data : list byte) (c : config) :
  this (snd (handleInfoResponse data c)) = this c.
Proof.
  destruct (Nat.lt_ge_cases (length data) 24) as [Hl|Hl].
  { by rewrite handleInfoResponse_short. }
  destruct (strict_ne_zero (info_rc data)) eqn:Hrc.
  - apply strict_ne_zero_true in Hrc. by rewrite handleInfoResponse_refused.
  - apply strict_ne_zero_false in Hrc. by rewrite handleInfoResponse_ok.
Qed.

(** X2: [info] never changes the service object: whether the encryptor throws,
    the socket refuses the packet, the host stays silent or answers, the
    system, the connection, the seed and the socket are afterwards what
    they were. *)
Theorem info_keeps_service_object (w : World) (serverSeed : value) (c : config) :
  this (snd (info w serverSeed c)) = this c.
Proof.
  destruct (encrypt_result serverSeed (this c)) as [blob|e] eqn:He.
  2:{ by rewrite (info_encrypt_throws w _ e c He). }
  destruct (sendPacket w (info_request blob (this c))) as [e|] eqn:Hs.
  { by rewrite (info_request_throws w _ blob e c He Hs). }
  destruct (reply w (info_request blob (this c))) as [data|] eqn:Hr.
  2:{ by rewrite (info_reply_missing w _ blob c He Hs Hr). }
  rewrite (info_reply w _ blob data c He Hs Hr).
  by rewrite handleInfoResponse_this.
Qed.

Lemma negotiated_overwrites (d1 d2 : list byte) (o : JsObject) :
  negotiated d2 (negotiated d1 o) = negotiated d2 o.
Proof.
  apply map_eq. intros k. unfold negotiated, set_prop.
  rewrite !lookup_insert. repeat case_decide; done.
Qed.

(** X3: an accepted seed-exchange reply overwrites what an earlier reply left:
    after any first reply, the system that an accepted second reply leaves
    is the one it would have left on its own. *)
Theorem seed_reply_overwrites_earlier (d1 d2 : list byte) (c : config) :
  (24 ≤ length d2)%nat →
  seed_rc d2 = VNumber 0 →
  this (snd (handleSeedExchangeResponse d2 (snd (handleSeedExchangeResponse d1 c))))
  = this (snd (handleSeedExchangeResponse d2 c)).
Proof.
  intros Hl Hrc. rewrite !(handleSeedExchangeResponse_ok d2) by done. simpl.
  destruct (Nat.lt_ge_cases (length d1) 24) as [Hl1|Hl1].
  { by rewrite handleSeedExchangeResponse_short. }
  destruct (strict_ne_zero (seed_rc d1)) eqn:Hrc1.
  - apply strict_ne_zero_true in Hrc1. by rewrite handleSeedExchangeResponse_refused.
  - apply strict_ne_zero_false in Hrc1. rewrite handleSeedExchangeResponse_ok by done.
    unfold with_system. simpl. by rewrite negotiated_overwrites.
Qed.

End Handlers.

(** ** Further properties of the runs *)

Section MoreRuns.
Context `{Collaborators}.

(** X4: the calls of every run are a beginning of the protocol: connect, then
    for the seed exchange once, send, parse, then encrypt, then for the info
    request once, send, parse.  So a listener is always registered before
    its packet is sent, no call is made out of order or twice, and a run
    that stops early has made the calls up to there and no other. *)
Theorem calls_follow_protocol (w : World) (s : Signon) :
  kind_of <$> calls (snd (run_signon w s)) `prefix_of` protocol
  ∧ head (calls (snd (run_signon w s))) = Some EvConnect.
Proof.
  run_cases w s; list_calls;
    unfold encrypt_call, seed_request, info_request, protocol; simpl;
    (split; [|done]).
  all: repeat apply prefix_cons.
  all: first [ apply prefix_nil | done ].
Qed.

Lemma get_prop_negotiated_other (data : list byte) (o : JsObject) (k : string) :
  k ∉ negotiation_keys → get_prop (negotiated data o) k = get_prop o k.
Proof.
  intros Hk. unfold get_prop. by rewrite negotiated_lookup_other.
Qed.

Lemma get_prop_negotiated_serverLevel (data : list byte) (o : JsObject) :
  get_prop (negotiated data o) "serverLevel" = seed_serverLevel data.
Proof.
  unfold negotiated. rewrite !get_prop_set_prop_ne by done.
  apply get_prop_set_prop_eq.
Qed.

Lemma get_prop_negotiated_passwordLevel (data : list byte) (o : JsObject) :
  get_prop (negotiated data o) "passwordLevel" = seed_passwordLevel data.
Proof.
  unfold negotiated. rewrite (get_prop_set_prop_ne _ "passwordLevel") by done.
  apply get_prop_set_prop_eq.
Qed.

Lemma not_negotiation_key (k : string) :
  k ≠ "serverLevel" → k ≠ "serverVersion" → k ≠ "passwordLevel" →
  k ≠ "passwordAttributesSet" → k ∉ negotiation_keys.
Proof.
  intros. unfold negotiation_keys. rewrite !not_elem_of_cons.
  repeat split; try done. apply not_elem_of_nil.
Qed.

Lemma encrypt_result_negotiated (w : World) (cn : value) (s : Signon) (data : list byte) :
  encrypt_result (VBuffer (seed_serverSeed data)) (this (negotiated_config w cn s data)) =
    encrypt (seed_passwordLevel data) (get_prop (system s) "userId")
            (get_prop (system s) "password") (clientSeed w)
            (VBuffer (seed_serverSeed data)).
Proof.
  unfold encrypt_result. rewrite system_negotiated_config, seed_negotiated_config.
  rewrite get_prop_negotiated_passwordLevel.
  by rewrite !get_prop_negotiated_other by (by apply not_negotiation_key).
Qed.

Lemma info_request_negotiated (w : World) (cn : value) (s : Signon) (data : list byte)
    (blob : value) :
  info_request blob (this (negotiated_config w cn s data)) =
    SignonInfoRequest (get_prop (system s) "userId") blob (seed_serverLevel data)
                      (socket s).
Proof.
  unfold info_request. rewrite system_negotiated_config.
  rewrite get_prop_negotiated_serverLevel.
  by rewrite get_prop_negotiated_other by (by apply not_negotiation_key).
Qed.

(** X5: the info request that a run sends carries the user id of the system, the
    server level read from the accepted seed-exchange reply, the socket of
    the service, and as password the blob that the encryptor returned for
    the negotiated password level, the user id, the password, the client
    seed and the server seed. *)
Theorem info_request_carries_encrypted_password
    (w : World) (s : Signon) (userId blob serverLevel sock : value) :
  EvSendPacket (SignonInfoRequest userId blob serverLevel sock)
    ∈ calls (snd (run_signon w s)) →
  ∃ data : list byte,
    reply w (seed_request w) = Some data
    ∧ (24 ≤ length data)%nat
    ∧ seed_rc data = VNumber 0
    ∧ userId = get_prop (system s) "userId"
    ∧ serverLevel = seed_serverLevel data
    ∧ sock = socket s
    ∧ encrypt (seed_passwordLevel data) (get_prop (system s) "userId")
              (get_prop (system s) "password") (clientSeed w)
              (VBuffer (seed_serverSeed data)) = inl blob.
Proof.
  intros Hin.
  run_cases w s; list_calls_in Hin;
    rewrite ?info_request_negotiated, ?encrypt_call_negotiated in Hin;
    unfold seed_request in Hin; set_unfold in Hin;
    (repeat match type of Hin with
            | _ ∨ _ => destruct Hin as [Hin|Hin]
            end);
    try discriminate Hin; try (by destruct Hin); simplify_eq.
  all: exists data; rewrite <- encrypt_result_negotiated with (cn := cn).
  all: done.
Qed.

(** X6: a run changes the system only in the four properties of the
    negotiation: every other property (the host name, the user id and the
    password among them) and the socket of the service are at the end what
    they were at the start, however the run ends. *)
Theorem signon_changes_only_negotiation (w : World) (s : Signon) (k : string) :
  k ∉ negotiation_keys →
  system (this (snd (run_signon w s))) !! k = system s !! k
  ∧ socket (this (snd (run_signon w s))) = socket s.
Proof.
  intros Hk. run_cases w s; simpl; split; try done;
    by apply negotiated_lookup_other.
Qed.

(** Without an exception in a listener, the negotiation is written whole or
    not at all. *)
Lemma run_negotiation_all_or_nothing (w : World) (s : Signon) :
  (called is_encrypt (snd (run_signon w s)) = false →
     system (this (snd (run_signon w s))) = system s)
  ∧ (called is_encrypt (snd (run_signon w s)) = true →
       ∃ data : list byte,
         reply w (seed_request w) = Some data
         ∧ seed_rc data = VNumber 0
         ∧ system (this (snd (run_signon w s))) = negotiated data (system s)
         ∧ passwordAttributesSet (this (snd (run_signon w s)))).
Proof.
  run_cases w s; unfold called; list_calls;
    unfold encrypt_call, seed_request, info_request; simpl;
    (split; intros Hcall; try discriminate Hcall; try done).
  all: exists data; repeat split; try done.
  all: apply (negotiated_passwordAttributesSet w cn s data).
Qed.

(** X8: a run keeps what it was given even when it fails: once [connect()] has
    resolved, the connection is stored on the service and the client seed
    of the request is kept in [this.seed], whatever happens next; when
    [connect()] does not resolve, the service object is untouched and
    nothing is sent. *)
Theorem connection_and_seed_are_kept (w : World) (s : Signon) :
  match connect w with
  | Resolved cn =>
      connection (this (snd (run_signon w s))) = cn
      ∧ seed (this (snd (run_signon w s))) = clientSeed w
  | _ =>
      this (snd (run_signon w s)) = s
      ∧ calls (snd (run_signon w s)) = [EvConnect]
  end.
Proof.
  run_cases w s;
    match goal with Hc : connect w = _ |- _ => rewrite Hc end; done.
Qed.

(** Without an exception in a listener, the conditions under which a run
    resolves. *)
Lemma run_resolves_iff (w : World) (s : Signon) (r : JsObject) :
  (fst (run_signon w s) = Resolved r
   ↔ ∃ (cn : value) (data : list byte) (blob : value) (data2 : list byte),
       connect w = Resolved cn
       ∧ sendPacket w (seed_request w) = None
       ∧ reply w (seed_request w) = Some data
       ∧ (24 ≤ length data)%nat
       ∧ seed_rc data = VNumber 0
       ∧ encrypt (seed_passwordLevel data) (get_prop (system s) "userId")
                 (get_prop (system s) "password") (clientSeed w)
                 (VBuffer (seed_serverSeed data)) = inl blob
       ∧ sendPacket w (SignonInfoRequest (get_prop (system s) "userId") blob
                                         (seed_serverLevel data) (socket s)) = None
       ∧ reply w (SignonInfoRequest (get_prop (system s) "userId") blob
                                    (seed_serverLevel data) (socket s)) = Some data2
       ∧ (24 ≤ length data2)%nat
       ∧ info_rc data2 = VNumber 0
       ∧ r = session_attributes data2)
  ∧ (fst (run_signon w s) = Resolved r →
     ∃ (data : list byte) (blob : value) (data2 : list byte),
       calls (snd (run_signon w s)) =
         [EvConnect;
          EvOnce HandleSeedExchangeResponse;
          EvSendPacket (SignonSeedExchangeRequest (clientSeed w));
          EvParse HandleSeedExchangeResponse data;
          EvEncrypt (seed_passwordLevel data) (get_prop (system s) "userId")
                    (get_prop (system s) "password") (clientSeed w)
                    (VBuffer (seed_serverSeed data));
          EvOnce HandleInfoResponse;
          EvSendPacket (SignonInfoRequest (get_prop (system s) "userId") blob
                                          (seed_serverLevel data) (socket s));
          EvParse HandleInfoResponse data2]).
Proof.
  split; [split|].
  - intros Hres. run_cases w s; simplify_eq.
    exists cn, data, blob, data2.
    rewrite <- (encrypt_result_negotiated w cn s data).
    rewrite <- (info_request_negotiated w cn s data blob).
    by repeat split.
  - intros (cn & data & blob & data2 & Hc & Hs & Hr & Hl & Hrc & He & Hs2 & Hr2
            & Hl2 & Hrc2 & ->).
    rewrite <- (encrypt_result_negotiated w cn s data) in He.
    rewrite <- (info_request_negotiated w cn s data blob) in Hs2, Hr2.
    rewrite (seed_phase_ok w s cn data Hc Hs Hr Hl Hrc).
    rewrite (info_reply w _ blob data2 _ He Hs2 Hr2).
    by rewrite handleInfoResponse_ok.
  - intros Hres. run_cases w s; simplify_eq.
    exists data, blob, data2. list_calls.
    by rewrite encrypt_call_negotiated, info_request_negotiated.
Qed.

End MoreRuns.

(** ** Runs on a system that was negotiated before *)

Section Renegotiation.
Context `{Collaborators}.

Lemma negotiated_agree (data : list byte) (o1 o2 : JsObject) :
  (∀ k : string, k ∉ negotiation_keys → o1 !! k = o2 !! k) →
  negotiated data o1 = negotiated data o2.
Proof.
  intros Hagree. apply map_eq. intros k.
  destruct (decide (k ∈ negotiation_keys)) as [Hk|Hk].
  - unfold negotiation_keys in Hk. rewrite !elem_of_cons, elem_of_nil in Hk.
    unfold negotiated, set_prop.
    destruct Hk as [->|[->|[->|[->|[]]]]]; by simplify_map_eq.
  - rewrite !negotiated_lookup_other by done. by apply Hagree.
Qed.

Lemma get_prop_agree (o1 o2 : JsObject) (k : string) :
  (∀ k : string, k ∉ negotiation_keys → o1 !! k = o2 !! k) →
  k ∉ negotiation_keys → get_prop o1 k = get_prop o2 k.
Proof. intros Hagree Hk. unfold get_prop. by rewrite (Hagree k Hk). Qed.

Lemma handleInfoResponse_agree (data : list byte) (c c' : config) :
  this c' = this c → calls c' = calls c →
  fst (handleInfoResponse data c') = fst (handleInfoResponse data c)
  ∧ calls (snd (handleInfoResponse data c')) = calls (snd (handleInfoResponse data c)).
Proof.
  intros Hthis Hcalls.
  destruct (Nat.lt_ge_cases (length data) 24) as [Hl|Hl].
  { rewrite !handleInfoResponse_short by done. simpl. by rewrite Hthis. }
  destruct (strict_ne_zero (info_rc data)) eqn:Hrc.
  - apply strict_ne_zero_true in Hrc. rewrite !handleInfoResponse_refused by done.
    simpl. rewrite !calls_logged. by rewrite Hthis, Hcalls.
  - apply strict_ne_zero_false in Hrc. rewrite !handleInfoResponse_ok by done.
    simpl. rewrite !calls_logged. by rewrite Hcalls.
Qed.

Lemma info_agree (w : World) (serverSeed : value) (c c' : config) :
  this c' = this c → calls c' = calls c →
  fst (info w serverSeed c') = fst (info w serverSeed c)
  ∧ calls (snd (info w serverSeed c')) = calls (snd (info w serverSeed c)).
Proof.
  intros Hthis Hcalls.
  destruct (encrypt_result serverSeed (this c)) as [blob|e] eqn:He.
  2:{ rewrite (info_encrypt_throws w _ e c He).
      rewrite <- Hthis in He. rewrite (info_encrypt_throws w _ e c' He).
      simpl. rewrite !calls_logged. by rewrite Hthis, Hcalls. }
  destruct (sendPacket w (info_request blob (this c))) as [e|] eqn:Hs.
  { rewrite (info_request_throws w _ blob e c He Hs).
    rewrite <- Hthis in He, Hs. rewrite (info_request_throws w _ blob e c' He Hs).
    simpl. rewrite !calls_awaiting_info_reply. by rewrite Hthis, Hcalls. }
  destruct (reply w (info_request blob (this c))) as [data|] eqn:Hr.
  2:{ rewrite (info_reply_missing w _ blob c He Hs Hr).
      rewrite <- Hthis in He, Hs, Hr.
      rewrite (info_reply_missing w _ blob c' He Hs Hr).
      simpl. rewrite !calls_awaiting_info_reply. by rewrite Hthis, Hcalls. }
  rewrite (info_reply w _ blob data c He Hs Hr).
  rewrite <- Hthis in He, Hs, Hr. rewrite (info_reply w _ blob data c' He Hs Hr).
  apply handleInfoResponse_agree.
  - simpl. by rewrite Hthis.
  - rewrite !calls_awaiting_info_reply. by rewrite Hthis, Hcalls.
Qed.

(** X11: a run does not read what an earlier negotiation left on the service:
    two service objects with the same socket whose systems differ only in
    serverLevel, serverVersion, passwordLevel and passwordAttributesSet,
    whatever their connection and seed, end the same way and make the same
    calls, so they send the same packets and pass the same arguments to the
    encryptor. *)
Theorem signon_ignores_earlier_negotiation (w : World) (s s' : Signon) :
  socket s' = socket s →
  (∀ k : string, k ∉ negotiation_keys → system s' !! k = system s !! k) →
  fst (run_signon w s') = fst (run_signon w s)
  ∧ calls (snd (run_signon w s')) = calls (snd (run_signon w s)).
Proof.
  intros Hsocket Hagree.
  assert (Hhost : hostName s' = hostName s).
  { unfold hostName. apply get_prop_agree; [done|].
    by apply not_negotiation_key. }
  destruct (connect w) as [cn|e|] eqn:Hc.
  2:{ by rewrite (run_connect_rejected w s e Hc), (run_connect_rejected w s' e Hc). }
  2:{ by rewrite (run_connect_pending w s Hc), (run_connect_pending w s' Hc). }
  destruct (sendPacket w (seed_request w)) as [e|] eqn:Hs.
  { by rewrite (run_seed_request_throws w s cn e Hc Hs),
      (run_seed_request_throws w s' cn e Hc Hs). }
  destruct (reply w (seed_request w)) as [data|] eqn:Hr.
  2:{ by rewrite (run_seed_reply_missing w s cn Hc Hs Hr),
        (run_seed_reply_missing w s' cn Hc Hs Hr). }
  destruct (Nat.lt_ge_cases (length data) 24) as [Hl|Hl].
  { rewrite (run_seed_reply w s cn data Hc Hs Hr), (run_seed_reply w s' cn data Hc Hs Hr).
    unfold mbind, M_bind. rewrite !handleSeedExchangeResponse_short by done.
    change (hostName (this (awaiting_seed_reply w cn s'))) with (hostName s').
    change (hostName (this (awaiting_seed_reply w cn s))) with (hostName s).
    by rewrite Hhost. }
  destruct (strict_ne_zero (seed_rc data)) eqn:Hrc.
  { apply strict_ne_zero_true in Hrc.
    rewrite (run_seed_reply w s cn data Hc Hs Hr), (run_seed_reply w s' cn data Hc Hs Hr).
    unfold mbind, M_bind. rewrite !handleSeedExchangeResponse_refused by done.
    change (hostName (this (awaiting_seed_reply w cn s'))) with (hostName s').
    change (hostName (this (awaiting_seed_reply w cn s))) with (hostName s).
    by rewrite Hhost. }
  apply strict_ne_zero_false in Hrc.
  rewrite (seed_phase_ok w s cn data Hc Hs Hr Hl Hrc).
  rewrite (seed_phase_ok w s' cn data Hc Hs Hr Hl Hrc).
  apply info_agree; [|done].
  unfold negotiated_config, with_system, seeded. simpl.
  by rewrite (negotiated_agree data (system s') (system s) Hagree), Hsocket.
Qed.

(** X12: [info] does not look at passwordAttributesSet: on a service object
    whose system has no passwordLevel property, its first call is still the
    call to the encryptor, with [undefined] as password level. *)
Theorem info_encrypts_without_negotiation
    (w : World) (serverSeed : value) (c : config) :
  system (this c) !! "passwordLevel" = None →
  ∃ rest : list event,
    calls (snd (info w serverSeed c)) =
      (calls c
       ++ EvEncrypt VUndefined (get_prop (system (this c)) "userId")
                    (get_prop (system (this c)) "password") (seed (this c)) serverSeed
          :: rest)%list.
Proof.
  intros Hnone. destruct (info_calls_encryptor_first w serverSeed c) as [rest Hrest].
  exists rest. rewrite Hrest. unfold encrypt_call, get_prop at 1. by rewrite Hnone.
Qed.

(** X13: the host in the error messages is the host name turned into a string:
    a string host name appears as it is, and on a system that has no
    hostName property the messages of the handlers end in "undefined". *)
Theorem handler_errors_name_host (data : list byte) (c : config) :
  (length data < 24)%nat →
  (∀ host : string,
     system (this c) !! "hostName" = Some (VString host) →
     fst (handleSeedExchangeResponse data c)
       = Rejected (VError ("Invalid seed exchange response received from " +:+ host))
     ∧ fst (handleInfoResponse data c)
       = Rejected (VError ("Invalid info response received from " +:+ host)))
  ∧ (system (this c) !! "hostName" = None →
     fst (handleSeedExchangeResponse data c)
       = Rejected (VError "Invalid seed exchange response received from undefined")
     ∧ fst (handleInfoResponse data c)
       = Rejected (VError "Invalid info response received from undefined")).
Proof.
  intros Hl.
  rewrite handleSeedExchangeResponse_short, handleInfoResponse_short by done.
  unfold hostName, get_prop. split.
  - intros host Hhost. by rewrite Hhost.
  - intros Hnone. by rewrite Hnone.
Qed.

End Renegotiation.

(** ** The error table *)

Section Table.

(** X14: the error table is unambiguous: the message is "Unknown error" exactly
    for the values that are none of the five codes, and two different codes
    of the table never share a message. *)
Theorem error_table_is_unambiguous :
  (∀ code : value,
     SignonErrors.get code = "Unknown error"
     ↔ ∀ n : Z, n ∈ SignonErrors.known_ids → code ≠ VNumber n)
  ∧ (∀ n m : Z,
       n ∈ SignonErrors.known_ids → m ∈ SignonErrors.known_ids →
       SignonErrors.get (VNumber n) = SignonErrors.get (VNumber m) → n = m).
Proof.
  split.
  - intros code. split; [|apply get_unknown].
    intros Hget n Hn ->. unfold SignonErrors.known_ids in Hn.
    rewrite !elem_of_cons, elem_of_nil in Hn.
    destruct Hn as [->|[->|[->|[->|[->|[]]]]]]; vm_compute in Hget; discriminate Hget.
  - intros n m Hn Hm Heq. unfold SignonErrors.known_ids in Hn, Hm.
    rewrite !elem_of_cons, elem_of_nil in Hn, Hm.
    destruct Hn as [->|[->|[->|[->|[->|[]]]]]];
      destruct Hm as [->|[->|[->|[->|[->|[]]]]]];
      try reflexivity; vm_compute in Heq; discriminate Heq.
Qed.

End Table.

(** ** The further properties on the sample runs *)

Section MoreSamples.
Existing Instance sample_collaborators.

Lemma info_request_carries_encrypted_password_witness :
  let w := sample_world (Some seed_reply_ok) (Some info_reply_ok) in
  let blob := VBuffer [x01; x02; x03; x04; x05; x06; x07; x08;
                       x09; x0a; x0b; x0c; x0d; x0e; x0f; x10] in
  EvSendPacket (SignonInfoRequest (VString "alice") blob (VNumber 1) (VHandle 1))
    ∈ calls (snd (run_signon w sample_service))
  ∧ ∃ data : list byte,
      reply w (seed_request w) = Some data
      ∧ (24 ≤ length data)%nat
      ∧ seed_rc data = VNumber 0
      ∧ VString "alice" = get_prop (system sample_service) "userId"
      ∧ VNumber 1 = seed_serverLevel data
      ∧ VHandle 1 = socket sample_service
      ∧ encrypt (seed_passwordLevel data) (get_prop (system sample_service) "userId")
                (get_prop (system sample_service) "password") (clientSeed w)
                (VBuffer (seed_serverSeed data)) = inl blob.
Proof.
  intros w blob.
  assert (Hin : EvSendPacket
                  (SignonInfoRequest (VString "alice") blob (VNumber 1) (VHandle 1))
                ∈ calls (snd (run_signon w sample_service)))
    by (vm_compute; repeat constructor).
  split; [exact Hin|].
  apply (info_request_carries_encrypted_password w sample_service _ _ _ _ Hin).
Defined.

Lemma password_is_no_negotiation_key : "password" ∉ negotiation_keys.
Proof. by apply not_negotiation_key. Qed.

Lemma signon_changes_only_negotiation_witness :
  let w := sample_world (Some seed_reply_ok) (Some info_reply_bad_password) in
  ("password" ∉ negotiation_keys)
  ∧ system (this (snd (run_signon w sample_service))) !! "password"
    = system sample_service !! "password"
  ∧ socket (this (snd (run_signon w sample_service))) = socket sample_service.
Proof.
  intros w. split; [exact password_is_no_negotiation_key|].
  apply (signon_changes_only_negotiation w sample_service "password"
           password_is_no_negotiation_key).
Defined.

Lemma seed_reply_newer_accepted :
  (24 ≤ length seed_reply_newer)%nat ∧ seed_rc seed_reply_newer = VNumber 0.
Proof. split; [vm_compute; lia | reflexivity]. Qed.

Lemma seed_reply_overwrites_earlier_witness :
  (24 ≤ length seed_reply_newer)%nat
  ∧ seed_rc seed_reply_newer = VNumber 0
  ∧ this (snd (handleSeedExchangeResponse seed_reply_newer
                 (snd (handleSeedExchangeResponse seed_reply_ok sample_config))))
    = this (snd (handleSeedExchangeResponse seed_reply_newer sample_config)).
Proof.
  destruct seed_reply_newer_accepted as [Hl Hrc].
  split; [exact Hl|]. split; [exact Hrc|].
  apply (seed_reply_overwrites_earlier seed_reply_ok seed_reply_newer sample_config
           Hl Hrc).
Defined.

Lemma stale_system_agrees (k : string) :
  k ∉ negotiation_keys → stale_system !! k = sample_system !! k.
Proof.
  unfold negotiation_keys. rewrite !not_elem_of_cons.
  intros (? & ? & ? & ? & _). unfold stale_system, set_prop.
  by rewrite !lookup_insert_ne.
Qed.

Lemma signon_ignores_earlier_negotiation_witness :
  let w := sample_world (Some seed_reply_ok) (Some info_reply_ok) in
  let s' := with_system stale_system sample_service in
  get_prop (system s') "passwordLevel" = VNumber 2
  ∧ socket s' = socket sample_service
  ∧ (∀ k : string, k ∉ negotiation_keys → system s' !! k = system sample_service !! k)
  ∧ fst (run_signon w s') = fst (run_signon w sample_service)
  ∧ calls (snd (run_signon w s')) = calls (snd (run_signon w sample_service)).
Proof.
  intros w s'. split; [reflexivity|]. split; [reflexivity|].
  split; [exact stale_system_agrees|].
  apply (signon_ignores_earlier_negotiation w sample_service s' eq_refl
           stale_system_agrees).
Defined.

Lemma info_encrypts_without_negotiation_witness :
  let w := sample_world (Some seed_reply_ok) (Some info_reply_ok) in
  system (this sample_config) !! "passwordLevel" = None
  ∧ system (this sample_config) !! "passwordAttributesSet" = None
  ∧ ∃ rest : list event,
      calls (snd (info w (VBuffer []) sample_config)) =
        (calls sample_config
         ++ EvEncrypt VUndefined (get_prop (system (this sample_config)) "userId")
                      (get_prop (system (this sample_config)) "password")
                      (seed (this sample_config)) (VBuffer [])
            :: rest)%list.
Proof.
  intros w.
  assert (Hnone : system (this sample_config) !! "passwordLevel" = None)
    by (vm_compute; reflexivity).
  split; [exact Hnone|]. split; [vm_compute; reflexivity|].
  apply (info_encrypts_without_negotiation w (VBuffer []) sample_config Hnone).
Defined.

Lemma handler_errors_name_host_witness :
  (length short_reply < 24)%nat
  ∧ system (this sample_config) !! "hostName" = Some (VString "as400.example.com")
  ∧ fst (handleSeedExchangeResponse short_reply sample_config)
    = Rejected (VError ("Invalid seed exchange response received from "
                        +:+ "as400.example.com"))
  ∧ fst (handleInfoResponse short_reply sample_config)
    = Rejected (VError ("Invalid info response received from "
                        +:+ "as400.example.com")).
Proof.
  assert (Hl : (length short_reply < 24)%nat) by (vm_compute; lia).
  assert (Hhost : system (this sample_config) !! "hostName"
                  = Some (VString "as400.example.com")) by (vm_compute; reflexivity).
  split; [exact Hl|]. split; [exact Hhost|].
  destruct (handler_errors_name_host short_reply sample_config Hl) as [Hstring _].
  apply (Hstring "as400.example.com" Hhost).
Defined.

End MoreSamples.

(** ** Listeners that can throw *)

Section ThrowingListeners.
Context `{Collaborators}.
Variable w : World.
Variable throws : access → list byte → option value.

Lemma with_system_same (s : Signon) : with_system (system s) s = s.
Proof. by destruct s. Qed.

Lemma seed_listener_short (data : list byte) (c : config) :
  (length data < 24)%nat →
  Listeners.handleSeedExchangeResponse throws data c = handleSeedExchangeResponse data c.
Proof.
  intros Hl.
  unfold Listeners.handleSeedExchangeResponse, handleSeedExchangeResponse,
    mbind, M_bind, get_this.
  by rewrite (short_length _ Hl).
Qed.

Lemma seed_listener_quiet (data : list byte) (c : config) :
  Listeners.seed_listener_throws throws data = None →
  Listeners.handleSeedExchangeResponse throws data c = handleSeedExchangeResponse data c.
Proof.
  intros Hnone.
  destruct (Nat.lt_ge_cases (length data) 24) as [Hl|Hl];
    [by apply seed_listener_short|].
  unfold Listeners.seed_listener_throws, Listeners.first_throw in Hnone.
  rewrite (long_length _ Hl) in Hnone.
  unfold Listeners.handleSeedExchangeResponse, handleSeedExchangeResponse,
    Listeners.read, mbind, M_bind, get_this, emit.
  rewrite (long_length _ Hl).
  destruct (throws NewSignonSeedExchangeResponse data); [done|].
  destruct (throws SeedRc data); [done|]. simpl.
  destruct (strict_ne_zero (seed_rc data)); [done|].
  destruct (throws SeedServerLevel data); [done|].
  destruct (throws SeedServerVersion data); [done|].
  destruct (throws SeedPasswordLevel data); [done|].
  destruct (throws SeedServerSeed data); [done|]. done.
Qed.

Lemma seed_listener_thrown (data : list byte) (c : config) (k : nat) (e : value) :
  Listeners.seed_listener_throws throws data = Some (k, e) →
  Listeners.handleSeedExchangeResponse throws data c =
    (Pending,
     {| this := with_system (written k data (system (this c))) (this c);
        history := history c ++ [(EvParse HandleSeedExchangeResponse data, this c)] |}).
Proof.
  intros Hsome.
  unfold Listeners.seed_listener_throws, Listeners.first_throw in Hsome.
  destruct (Nat.lt_ge_cases (length data) 24) as [Hl|Hl].
  { by rewrite (short_length _ Hl) in Hsome. }
  rewrite (long_length _ Hl) in Hsome.
  unfold Listeners.handleSeedExchangeResponse,
    Listeners.read, mbind, M_bind, get_this, emit, uncaught.
  rewrite (long_length _ Hl).
  destruct (throws NewSignonSeedExchangeResponse data);
    [simplify_eq; simpl; by rewrite with_system_same|].
  destruct (throws SeedRc data);
    [simplify_eq; simpl; by rewrite with_system_same|]. simpl.
  destruct (strict_ne_zero (seed_rc data)); [done|].
  destruct (throws SeedServerLevel data);
    [simplify_eq; simpl; by rewrite with_system_same|].
  destruct (throws SeedServerVersion data); [by simplify_eq|].
  destruct (throws SeedPasswordLevel data); [by simplify_eq|].
  destruct (throws SeedServerSeed data); [by simplify_eq|]. done.
Qed.

Lemma info_listener_quiet (data : list byte) (c : config) :
  Listeners.info_listener_throws throws data = None →
  Listeners.handleInfoResponse throws data c = handleInfoResponse data c.
Proof.
  intros Hnone.
  unfold Listeners.info_listener_throws, Listeners.first_throw in Hnone.
  unfold Listeners.handleInfoResponse, handleInfoResponse,
    Listeners.read, mbind, M_bind, get_this, emit.
  destruct (length data <? 24)%nat; [done|].
  destruct (throws NewSignonInfoResponse data); [done|].
  destruct (throws InfoRc data); [done|]. simpl.
  destruct (strict_ne_zero (info_rc data)); [done|].
  destruct (throws InfoServerCCSID data); [done|].
  destruct (throws InfoCurrentSignonDate data); [done|].
  destruct (throws InfoLastSignonDate data); [done|].
  destruct (throws InfoPasswordExpirationDate data); [done|].
  destruct (throws InfoExpirationWarning data); [done|].
  destruct (throws InfoUserId data); [done|]. done.
Qed.

Lemma info_listener_thrown (data : list byte) (c : config) (e : value) :
  Listeners.info_listener_throws throws data = Some e →
  Listeners.handleInfoResponse throws data c =
    (Pending, logged (EvParse HandleInfoResponse data) c).
Proof.
  intros Hsome.
  unfold Listeners.info_listener_throws, Listeners.first_throw in Hsome.
  unfold Listeners.handleInfoResponse,
    Listeners.read, mbind, M_bind, get_this, emit, uncaught.
  destruct (length data <? 24)%nat; [done|].
  destruct (throws NewSignonInfoResponse data); [done|].
  destruct (throws InfoRc data); [done|]. simpl.
  destruct (strict_ne_zero (info_rc data)); [done|].
  destruct (throws InfoServerCCSID data); [done|].
  destruct (throws InfoCurrentSignonDate data); [done|].
  destruct (throws InfoLastSignonDate data); [done|].
  destruct (throws InfoPasswordExpirationDate data); [done|].
  destruct (throws InfoExpirationWarning data); [done|].
  destruct (throws InfoUserId data); [done|]. done.
Qed.

Lemma listeners_run_seed_reply (s : Signon) (cn : value) (data : list byte) :
  connect w = Resolved cn → sendPacket w (seed_request w) = None →
  reply w (seed_request w) = Some data →
  Listeners.run_signon w throws s =
    (Listeners.handleSeedExchangeResponse throws data ≫= Listeners.info w throws)
      (awaiting_seed_reply w cn s).
Proof.
  intros Hc Hs Hr. unfold Listeners.run_signon, Listeners.signon.
  rewrite try_catch_rethrow. unfold Listeners.signon_body.
  unfold mbind at 1 2 3. unfold M_bind at 1 2 3. unfold emit, await. simpl. rewrite Hc.
  unfold Listeners.exchangeSeeds, do_sendPacket, next_data.
  unfold mbind, M_bind, emit, await. simpl.
  fold (seed_request w). by rewrite Hs, Hr.
Qed.

Lemma listeners_run_unanswered (s : Signon) :
  (∀ (cn : value) (data : list byte),
     connect w = Resolved cn → sendPacket w (seed_request w) = None →
     reply w (seed_request w) = Some data → False) →
  Listeners.run_signon w throws s = run_signon w s.
Proof.
  intros Hno.
  unfold Listeners.run_signon, Listeners.signon, run_signon, signon.
  rewrite !try_catch_rethrow.
  unfold Listeners.signon_body, signon_body, Listeners.exchangeSeeds, exchangeSeeds,
    do_sendPacket, next_data.
  unfold mbind, M_bind, emit, await. simpl. fold (seed_request w).
  destruct (connect w) as [cn|e|] eqn:Hc; try done. simpl.
  destruct (sendPacket w (seed_request w)) as [e|] eqn:Hs; [done|]. simpl.
  destruct (reply w (seed_request w)) as [data|] eqn:Hr; [|done].
  destruct (Hno cn data); done.
Qed.

Lemma listeners_info_reply (serverSeed blob : value) (data : list byte) (c : config) :
  encrypt_result serverSeed (this c) = inl blob →
  sendPacket w (info_request blob (this c)) = None →
  reply w (info_request blob (this c)) = Some data →
  Listeners.info w throws serverSeed c =
    Listeners.handleInfoResponse throws data (awaiting_info_reply serverSeed blob c).
Proof.
  intros He Hs Hr.
  unfold Listeners.info, do_sendPacket, next_data.
  unfold mbind, M_bind, get_this, emit, await. simpl.
  fold (encrypt_result serverSeed (this c)). rewrite He. simpl.
  fold (info_request blob (this c)). rewrite Hs, Hr. simpl.
  unfold awaiting_info_reply, logged. simpl. by rewrite <- !(assoc_L (++)).
Qed.

Lemma listeners_info_unanswered (serverSeed : value) (c : config) :
  (∀ (blob : value) (data : list byte),
     encrypt_result serverSeed (this c) = inl blob →
     sendPacket w (info_request blob (this c)) = None →
     reply w (info_request blob (this c)) = Some data → False) →
  Listeners.info w throws serverSeed c = info w serverSeed c.
Proof.
  intros Hno.
  unfold Listeners.info, info, do_sendPacket, next_data.
  unfold mbind, M_bind, get_this, emit, await. simpl.
  fold (encrypt_result serverSeed (this c)).
  destruct (encrypt_result serverSeed (this c)) as [blob|e] eqn:He; [|done]. simpl.
  fold (info_request blob (this c)).
  destruct (sendPacket w (info_request blob (this c))) as [e|] eqn:Hs; [done|].
  destruct (reply w (info_request blob (this c))) as [data|] eqn:Hr; [|done].
  destruct (Hno blob data); done.
Qed.

Lemma parsed_seed_reply (s : Signon) (data : list byte) :
  EvParse HandleSeedExchangeResponse data ∈ calls (snd (run_signon w s)) →
  ∃ cn : value,
    connect w = Resolved cn
    ∧ sendPacket w (seed_request w) = None
    ∧ reply w (seed_request w) = Some data.
Proof. intros Hin. run_cases w s; mem_cases Hin; exists cn; done. Qed.

Lemma parsed_info_reply (s : Signon) (data2 : list byte) :
  EvParse HandleInfoResponse data2 ∈ calls (snd (run_signon w s)) →
  ∃ (cn : value) (data : list byte) (blob : value),
    connect w = Resolved cn
    ∧ sendPacket w (seed_request w) = None
    ∧ reply w (seed_request w) = Some data
    ∧ (24 ≤ length data)%nat
    ∧ seed_rc data = VNumber 0
    ∧ encrypt_result (VBuffer (seed_serverSeed data))
        (this (negotiated_config w cn s data)) = inl blob
    ∧ sendPacket w (info_request blob (this (negotiated_config w cn s data))) = None
    ∧ reply w (info_request blob (this (negotiated_config w cn s data))) = Some data2.
Proof.
  intros Hin. run_cases w s; mem_cases Hin; exists cn, data, blob; done.
Qed.

Lemma listeners_run_cases (s : Signon) :
  (∃ (cn : value) (data : list byte) (k : nat) (e : value),
     connect w = Resolved cn
     ∧ sendPacket w (seed_request w) = None
     ∧ reply w (seed_request w) = Some data
     ∧ Listeners.seed_listener_throws throws data = Some (k, e)
     ∧ Listeners.run_signon w throws s =
         (Pending,
          {| this := with_system (written k data (system s)) (seeded w cn s);
             history := history (awaiting_seed_reply w cn s)
                        ++ [(EvParse HandleSeedExchangeResponse data, seeded w cn s)] |}))
  ∨ (∃ (cn : value) (data : list byte) (blob : value) (data2 : list byte) (e : value),
       connect w = Resolved cn
       ∧ sendPacket w (seed_request w) = None
       ∧ reply w (seed_request w) = Some data
       ∧ (24 ≤ length data)%nat
       ∧ seed_rc data = VNumber 0
       ∧ Listeners.seed_listener_throws throws data = None
       ∧ encrypt_result (VBuffer (seed_serverSeed data))
           (this (negotiated_config w cn s data)) = inl blob
       ∧ sendPacket w (info_request blob (this (negotiated_config w cn s data))) = None
       ∧ reply w (info_request blob (this (negotiated_config w cn s data))) = Some data2
       ∧ Listeners.info_listener_throws throws data2 = Some e
       ∧ Listeners.run_signon w throws s =
           (Pending,
            logged (EvParse HandleInfoResponse data2)
              (awaiting_info_reply (VBuffer (seed_serverSeed data)) blob
                 (negotiated_config w cn s data))))
  ∨ (Listeners.run_signon w throws s = run_signon w s
     ∧ (∀ data : list byte,
          EvParse HandleSeedExchangeResponse data ∈ calls (snd (run_signon w s)) →
          Listeners.seed_listener_throws throws data = None)
     ∧ (∀ data2 : list byte,
          EvParse HandleInfoResponse data2 ∈ calls (snd (run_signon w s)) →
          Listeners.info_listener_throws throws data2 = None)).
Proof.
  destruct (connect w) as [cn|e|] eqn:Hc.
  2,3: right; right; split; [apply listeners_run_unanswered; intros; congruence|];
       split; [intros d (? & ? & _)%parsed_seed_reply
              |intros d (? & ? & ? & ? & _)%parsed_info_reply];
       congruence.
  destruct (sendPacket w (seed_request w)) as [e|] eqn:Hs.
  { right; right. split; [apply listeners_run_unanswered; intros; congruence|].
    split; [|intros d (? & ? & ? & ? & ? & _)%parsed_info_reply; congruence].
    intros d (? & ? & ? & _)%parsed_seed_reply. congruence. }
  destruct (reply w (seed_request w)) as [data|] eqn:Hr.
  2:{ right; right. split; [apply listeners_run_unanswered; intros; congruence|].
      split; [intros d (? & ? & ? & ?)%parsed_seed_reply
             |intros d (? & ? & ? & ? & ? & ? & _)%parsed_info_reply];
        congruence. }
  destruct (Listeners.seed_listener_throws throws data) as [[k e]|] eqn:Hseed.
  { left. exists cn, data, k, e. repeat split; try done.
    rewrite (listeners_run_seed_reply s cn data Hc Hs Hr). unfold mbind, M_bind.
    by rewrite (seed_listener_thrown data _ k e Hseed). }
  assert (Hseeds : ∀ d : list byte,
             EvParse HandleSeedExchangeResponse d ∈ calls (snd (run_signon w s)) →
             Listeners.seed_listener_throws throws d = None).
  { intros d (? & ? & ? & ?)%parsed_seed_reply. congruence. }
  assert (Hrun : Listeners.run_signon w throws s =
                 (handleSeedExchangeResponse data ≫= Listeners.info w throws)
                   (awaiting_seed_reply w cn s)).
  { rewrite (listeners_run_seed_reply s cn data Hc Hs Hr). unfold mbind, M_bind.
    by rewrite (seed_listener_quiet data _ Hseed). }
  destruct (Nat.lt_ge_cases (length data) 24) as [Hl|Hl].
  { right; right. split; [|split; [done|]].
    - rewrite Hrun, (run_seed_reply w s cn data Hc Hs Hr). unfold mbind, M_bind.
      by rewrite handleSeedExchangeResponse_short.
    - intros d (? & ? & ? & ? & ? & ? & ? & _)%parsed_info_reply.
      same_world; try lia. }
  destruct (strict_ne_zero (seed_rc data)) eqn:Hrc.
  { apply strict_ne_zero_true in Hrc. right; right. split; [|split; [done|]].
    - rewrite Hrun, (run_seed_reply w s cn data Hc Hs Hr). unfold mbind, M_bind.
      by rewrite handleSeedExchangeResponse_refused.
    - intros d (? & ? & ? & ? & ? & ? & ? & ? & _)%parsed_info_reply.
      same_world; try done. }
  apply strict_ne_zero_false in Hrc.
  unfold mbind, M_bind in Hrun. rewrite handleSeedExchangeResponse_ok in Hrun by done.
  change (Listeners.run_signon w throws s =
          Listeners.info w throws (VBuffer (seed_serverSeed data))
            (negotiated_config w cn s data)) in Hrun.
  destruct (encrypt_result (VBuffer (seed_serverSeed data))
              (this (negotiated_config w cn s data))) as [blob|e] eqn:He.
  2:{ right; right. split; [|split; [done|]].
      - rewrite Hrun, (seed_phase_ok w s cn data Hc Hs Hr Hl Hrc).
        apply listeners_info_unanswered. intros. congruence.
      - intros d (cn' & d' & b' & ? & ? & ? & ? & ? & He' & _)%parsed_info_reply.
        same_world; try congruence. }
  destruct (sendPacket w (info_request blob (this (negotiated_config w cn s data))))
    as [e|] eqn:Hs2.
  { right; right. split; [|split; [done|]].
    - rewrite Hrun, (seed_phase_ok w s cn data Hc Hs Hr Hl Hrc).
      apply listeners_info_unanswered. intros. congruence.
    - intros d (cn' & d' & b' & ? & ? & ? & ? & ? & He' & Hs' & _)%parsed_info_reply.
      same_world; try congruence. }
  destruct (reply w (info_request blob (this (negotiated_config w cn s data))))
    as [data2|] eqn:Hr2.
  2:{ right; right. split; [|split; [done|]].
      - rewrite Hrun, (seed_phase_ok w s cn data Hc Hs Hr Hl Hrc).
        apply listeners_info_unanswered. intros. congruence.
      - intros d (cn' & d' & b' & ? & ? & ? & ? & ? & He' & Hs' & Hr')%parsed_info_reply.
        same_world; try congruence. }
  destruct (Listeners.info_listener_throws throws data2) as [e|] eqn:Hinfo.
  { right; left. exists cn, data, blob, data2, e. repeat split; try done.
    rewrite Hrun, (listeners_info_reply (VBuffer (seed_serverSeed data)) blob data2 (negotiated_config w cn s data) He Hs2 Hr2).
    by rewrite (info_listener_thrown data2 _ e Hinfo). }
  right; right. split; [|split; [done|]].
  - rewrite Hrun, (seed_phase_ok w s cn data Hc Hs Hr Hl Hrc).
    rewrite (listeners_info_reply (VBuffer (seed_serverSeed data)) blob data2 (negotiated_config w cn s data) He Hs2 Hr2).
    rewrite (info_reply w (VBuffer (seed_serverSeed data)) blob data2 (negotiated_config w cn s data) He Hs2 Hr2).
    by apply info_listener_quiet.
  - intros d (cn' & d' & b' & ? & ? & ? & ? & ? & He' & Hs' & Hr')%parsed_info_reply.
    same_world; try congruence.
Qed.

End ThrowingListeners.

(** ** The outcomes of a run and their causes *)

Section Outcomes.
Context `{Collaborators}.
Variable w : World.








End Outcomes.

Section ListenerOutcomes.
Context `{Collaborators}.
Variable w : World.
Variable throws : access → list byte → option value.

Lemma calls_seed_listener_thrown (s s' : Signon) (cn : value) (data : list byte) :
  calls {| this := s';
           history := history (awaiting_seed_reply w cn s)
                      ++ [(EvParse HandleSeedExchangeResponse data, seeded w cn s)] |} =
    [EvConnect; EvOnce HandleSeedExchangeResponse; EvSendPacket (seed_request w);
     EvParse HandleSeedExchangeResponse data].
Proof. done. Qed.


End ListenerOutcomes.

Section ListenerProperties.
Context `{Collaborators}.
Variable w : World.
Variable throws : access → list byte → option value.

Lemma seed_listener_throws_writes (data : list byte) (k : nat) (e : value) :
  Listeners.seed_listener_throws throws data = Some (k, e) →
  k ∈ [0; 1; 2; 4]%nat.
Proof.
  unfold Listeners.seed_listener_throws, Listeners.first_throw.
  destruct (length data <? 24)%nat; [done|].
  destruct (throws NewSignonSeedExchangeResponse data); [intros; simplify_eq; set_solver|].
  destruct (throws SeedRc data); [intros; simplify_eq; set_solver|].
  destruct (strict_ne_zero (seed_rc data)); [done|].
  destruct (throws SeedServerLevel data); [intros; simplify_eq; set_solver|].
  destruct (throws SeedServerVersion data); [intros; simplify_eq; set_solver|].
  destruct (throws SeedPasswordLevel data); [intros; simplify_eq; set_solver|].
  destruct (throws SeedServerSeed data); [intros; simplify_eq; set_solver|]. done.
Qed.

(** X7: the negotiation is never undone, and it is written whole or not at
    all unless an exception leaves the seed-exchange listener.  A run that
    called the encryptor leaves the four properties of the accepted
    seed-exchange reply on the system, also when phase 2 then fails.  A run
    that did not call it leaves the system as it was, or, when an access of
    the listener threw, with the assignments made before the exception: the
    first 0, 1, 2 or all 4 of serverLevel, serverVersion, passwordLevel and
    passwordAttributesSet. *)
Theorem negotiation_is_never_undone (s : Signon) :
  (called is_encrypt (snd (Listeners.run_signon w throws s)) = true →
     ∃ data : list byte,
       reply w (seed_request w) = Some data
       ∧ seed_rc data = VNumber 0
       ∧ system (this (snd (Listeners.run_signon w throws s)))
         = negotiated data (system s)
       ∧ passwordAttributesSet (this (snd (Listeners.run_signon w throws s))))
  ∧ (called is_encrypt (snd (Listeners.run_signon w throws s)) = false →
       system (this (snd (Listeners.run_signon w throws s))) = system s
       ∨ ∃ (data : list byte) (k : nat) (e : value),
           reply w (seed_request w) = Some data
           ∧ Listeners.seed_listener_throws throws data = Some (k, e)
           ∧ k ∈ [0; 1; 2; 4]%nat
           ∧ system (this (snd (Listeners.run_signon w throws s)))
             = written k data (system s)).
Proof.
  destruct (listeners_run_cases w throws s)
    as [(cn & data & k & e & Hc & Hs & Hr & Ht & ->)
       |[(cn & data & blob & data2 & e & Hc & Hs & Hr & Hl & Hrc & Ht & He & Hs2
          & Hr2 & Ht2 & ->)
        |(-> & _)]];
    cbn [fst snd].
  - unfold called. rewrite calls_seed_listener_thrown. simpl.
    split; [intros Hcall; discriminate Hcall|]. intros _. right.
    exists data, k, e. repeat split; try done.
    by apply (seed_listener_throws_writes data k e).
  - unfold called. list_calls. unfold encrypt_call, seed_request, info_request. simpl.
    split; [|intros Hcall; discriminate Hcall]. intros _.
    exists data. repeat split; try done.
    apply (negotiated_passwordAttributesSet w cn s data).
  - destruct (run_negotiation_all_or_nothing w s) as [Hnone Hall].
    split; [exact Hall|]. intros Hcall. left. by apply Hnone.
Qed.

(** X9: [signon()] resolves exactly when the connection is made, both
    packets are sent, both replies have at least 24 bytes and status 0, no
    access to either response throws, and the encryptor returns a blob; it
    then resolves with the session attributes of the info reply, after
    eight calls: connect, once, send, parse, encrypt, once, send, parse. *)
Theorem signon_resolves_exactly_when (s : Signon) (r : JsObject) :
  (fst (Listeners.run_signon w throws s) = Resolved r
   ↔ ∃ (cn : value) (data : list byte) (blob : value) (data2 : list byte),
       connect w = Resolved cn
       ∧ sendPacket w (seed_request w) = None
       ∧ reply w (seed_request w) = Some data
       ∧ (24 ≤ length data)%nat
       ∧ seed_rc data = VNumber 0
       ∧ Listeners.seed_listener_throws throws data = None
       ∧ encrypt (seed_passwordLevel data) (get_prop (system s) "userId")
                 (get_prop (system s) "password") (clientSeed w)
                 (VBuffer (seed_serverSeed data)) = inl blob
       ∧ sendPacket w (SignonInfoRequest (get_prop (system s) "userId") blob
                                         (seed_serverLevel data) (socket s)) = None
       ∧ reply w (SignonInfoRequest (get_prop (system s) "userId") blob
                                    (seed_serverLevel data) (socket s)) = Some data2
       ∧ (24 ≤ length data2)%nat
       ∧ info_rc data2 = VNumber 0
       ∧ Listeners.info_listener_throws throws data2 = None
       ∧ r = session_attributes data2)
  ∧ (fst (Listeners.run_signon w throws s) = Resolved r →
     ∃ (data : list byte) (blob : value) (data2 : list byte),
       calls (snd (Listeners.run_signon w throws s)) =
         [EvConnect;
          EvOnce HandleSeedExchangeResponse;
          EvSendPacket (SignonSeedExchangeRequest (clientSeed w));
          EvParse HandleSeedExchangeResponse data;
          EvEncrypt (seed_passwordLevel data) (get_prop (system s) "userId")
                    (get_prop (system s) "password") (clientSeed w)
                    (VBuffer (seed_serverSeed data));
          EvOnce HandleInfoResponse;
          EvSendPacket (SignonInfoRequest (get_prop (system s) "userId") blob
                                          (seed_serverLevel data) (socket s));
          EvParse HandleInfoResponse data2]).
Proof.
  destruct (run_resolves_iff w s r) as [[Honly Hif] Htrace].
  split; [split|].
  - intros Hres.
    destruct (listeners_run_cases w throws s)
      as [(cn & data & k & e & _ & _ & _ & _ & Hrun)
         |[(cn & data & blob & data2 & e & _ & _ & _ & _ & _ & _ & _ & _ & _ & _ & Hrun)
          |(Hrun & Hseeds & Hinfos)]];
      rewrite Hrun in Hres; try discriminate Hres.
    destruct (Htrace Hres) as (data & blob & data2 & Hcalls).
    destruct (Honly Hres)
      as (cn & data' & blob' & data2' & Hc & Hs & Hr & Hl & Hrc & He & Hs2 & Hr2
          & Hl2 & Hrc2 & ->).
    exists cn, data', blob', data2'.
    assert (Hin1 : EvParse HandleSeedExchangeResponse data'
                   ∈ calls (snd (run_signon w s))).
    { rewrite <- (encrypt_result_negotiated w cn s data') in He.
      rewrite <- (info_request_negotiated w cn s data' blob') in Hs2, Hr2.
      rewrite (seed_phase_ok w s cn data' Hc Hs Hr Hl Hrc).
      rewrite (info_reply w _ blob' data2' _ He Hs2 Hr2).
      rewrite handleInfoResponse_ok by done. cbn [snd]. list_calls. rewrite !elem_of_app, !elem_of_cons. tauto. }
    assert (Hin2 : EvParse HandleInfoResponse data2'
                   ∈ calls (snd (run_signon w s))).
    { rewrite <- (encrypt_result_negotiated w cn s data') in He.
      rewrite <- (info_request_negotiated w cn s data' blob') in Hs2, Hr2.
      rewrite (seed_phase_ok w s cn data' Hc Hs Hr Hl Hrc).
      rewrite (info_reply w _ blob' data2' _ He Hs2 Hr2).
      rewrite handleInfoResponse_ok by done. cbn [snd]. list_calls. rewrite !elem_of_app, !elem_of_cons. tauto. }
    repeat split; try done; [by apply Hseeds | by apply Hinfos].
  - intros (cn & data & blob & data2 & Hc & Hs & Hr & Hl & Hrc & Ht & He & Hs2 & Hr2
            & Hl2 & Hrc2 & Ht2 & ->).
    rewrite <- (encrypt_result_negotiated w cn s data) in He.
    rewrite <- (info_request_negotiated w cn s data blob) in Hs2, Hr2.
    rewrite (listeners_run_seed_reply w throws s cn data Hc Hs Hr).
    unfold mbind, M_bind. rewrite (seed_listener_quiet throws data _ Ht).
    rewrite handleSeedExchangeResponse_ok by done.
    change (fst (Listeners.info w throws (VBuffer (seed_serverSeed data))
                   (negotiated_config w cn s data))
            = Resolved (session_attributes data2)).
    rewrite (listeners_info_reply w throws _ blob data2 _ He Hs2 Hr2).
    rewrite (info_listener_quiet throws data2 _ Ht2).
    by rewrite handleInfoResponse_ok.
  - intros Hres.
    destruct (listeners_run_cases w throws s)
      as [(cn & data & k & e & _ & _ & _ & _ & Hrun)
         |[(cn & data & blob & data2 & e & _ & _ & _ & _ & _ & _ & _ & _ & _ & _ & Hrun)
          |(Hrun & _)]];
      rewrite Hrun in Hres |- *; try discriminate Hres.
    by apply Htrace.
Qed.




End ListenerProperties.

(** ** Runs that do not settle *)

Section PendingRuns.
Existing Instance sample_collaborators.


(** An exception thrown while the seed-exchange response is built is not the
    rejection of the run: the run stays pending and the system is as it
    was. *)
Example seed_response_exception_is_not_propagated :
  let w := sample_world (Some seed_reply_ok) (Some info_reply_ok) in
  fst (Listeners.run_signon w seed_response_throws sample_service) = Pending
  ∧ system (this (snd (Listeners.run_signon w seed_response_throws sample_service)))
    = sample_system.
Proof. split; by vm_compute. Qed.

(** An exception thrown by the server version getter leaves the system with
    the server level of the reply and nothing else of the negotiation. *)
Example server_version_exception_leaves_server_level :
  let w := sample_world (Some seed_reply_ok) (Some info_reply_ok) in
  let sys := system (this (snd (Listeners.run_signon w server_version_throws
                                  sample_service))) in
  fst (Listeners.run_signon w server_version_throws sample_service) = Pending
  ∧ sys !! "serverLevel" = Some (VNumber 1)
  ∧ sys !! "serverVersion" = None
  ∧ sys !! "passwordLevel" = None
  ∧ sys !! "passwordAttributesSet" = None.
Proof. repeat split; by vm_compute. Qed.

End PendingRuns.
